(** * smhd-api-wot: the HTTP server of [src/server.ts] over the Prisma schema

    A shallow embedding of the Fastify application: the [onRequest] hook, the
    [authenticate] decorator and the seven route handlers, run against an
    explicit model of the document store that [prisma/schema.prisma]
    declares.  Handlers are written in a small state-and-exception monad over
    the store, so that what a request leaves behind when it throws half-way is
    part of the model. *)

From Stdlib Require Import List String Ascii ZArith NArith Bool Floats Lia.
Import ListNotations.
Open Scope string_scope.

(** ** Data model ([prisma/schema.prisma]) *)

(** [@db.ObjectId] values.  The store hands them out from a counter. *)
Definition ObjectId := N.
Bind Scope N_scope with ObjectId.

(** [DateTime]: an instant, in milliseconds since the epoch. *)
Definition DateTime := Z.
Bind Scope Z_scope with DateTime.

Module User.
Record t := mk
  { id : ObjectId;
    email : string;          (* @unique *)
    password : string;
    createdAt : DateTime }.
End User.

Module Device.
Record t := mk
  { id : ObjectId;
    serialNumber : string;   (* @unique *)
    createdAt : DateTime }.
End Device.

Module UserDevice.
Record t := mk
  { id : ObjectId;
    userId : ObjectId;
    deviceId : ObjectId }.
End UserDevice.

Module DeviceEvent.
Record t := mk
  { id : ObjectId;
    deviceId : ObjectId;
    macAddress : string;
    ipAddress : string;
    soilMoisture : option float;    (* Float? *)
    humidity : option float;        (* Float? *)
    temperature : option float;     (* Float? *)
    lighIntensity : option float;   (* Float? *)
    happenedAt : DateTime;
    createdAt : DateTime }.
End DeviceEvent.

(** The four collections and the generator of [@default(auto())] ids. *)
Record DB := mkDB
  { users : list User.t;
    devices : list Device.t;
    userDevices : list UserDevice.t;
    deviceEvents : list DeviceEvent.t;
    nextId : ObjectId }.

Definition emptyDB : DB := mkDB [] [] [] [] 0%N.

(** ** Request data *)

(** A JSON value as a handler sees it after body parsing.  Only the shapes the
    zod schemas tell apart are kept: arrays and nested objects are [JOther]. *)
Inductive JValue :=
| JNull
| JBool (b : bool)
| JNumber (x : float)
| JString (s : string)
| JOther.

(** [request.body]: the own properties of the parsed JSON object. *)
Definition JObject := list (string * JValue).

Fixpoint prop (k : string) (o : JObject) : option JValue :=
  match o with
  | [] => None
  | (k', v) :: o' => if String.eqb k k' then Some v else prop k o'
  end.

(** [interface IQuerystring]. *)
Record Querystring := mkQuery
  { startDate : option string;
    endDate : option string }.

(** JavaScript truthiness of a [string | undefined]. *)
Definition truthy (s : option string) : bool :=
  match s with
  | None => false
  | Some s => negb (String.eqb s "")
  end.

(** [a !== b] on [string | undefined] is [negb (strict_eq a b)]. *)
Definition strict_eq (a b : option string) : bool :=
  match a, b with
  | None, None => true
  | Some x, Some y => String.eqb x y
  | _, _ => false
  end.

(** [v || d] on [string | undefined]. *)
Definition or_else (v : option string) (d : string) : string :=
  if truthy v then match v with Some s => s | None => d end else d.

(** [process.env], the variables the server reads. *)
Record Env := mkEnv
  { API_KEY : option string;
    JWT_SECRET_KEY : string;
    JWT_EXPIRES_IN : option string }.

(** ** Collaborators outside the repository

    zod's string validators, bcrypt, the JavaScript [Date] parser and the
    referential action the Prisma engine applies are not code of this
    repository.  They are interfaces here; every theorem below holds for any
    implementation of them. *)

Class Zod := mkZod
  { z_email : string -> bool;       (* z.string().email() *)
    z_ip : string -> bool;          (* z.string().ip() *)
    z_datetime : string -> bool;    (* z.string().datetime() *)
    z_datetime_nonempty : z_datetime "" = false }.

Class Bcrypt := mkBcrypt
  { hash : string -> nat -> string;       (* hash(data, rounds) *)
    compare : string -> string -> bool }. (* compare(data, encrypted) *)

(** [new Date(s)]; [None] is the Invalid Date. *)
Definition JsDate := option DateTime.

Class DateParser := mkDateParser
  { newDate : string -> JsDate }.

(** What [device.delete] does when rows still reference the device.  The
    relations [UserDevice.device] and [DeviceEvent.device] of the schema are
    mandatory and carry no [onDelete] clause, for which Prisma's default is
    [Restrict]: the delete is refused.  [NoAction] is a store without that
    check: the row is removed and the references are left dangling. *)
Inductive ReferentialAction := Restrict | NoAction.

Class PrismaEngine := mkEngine
  { onDelete : ReferentialAction }.

(** ** Session tokens ([@fastify/jwt]) *)

Module Jwt.
(** The payload the handlers sign: [{ id, email }]; it is [request.user]
    after [jwtVerify]. *)
Record payload := mkPayload
  { id : ObjectId;
    email : string }.

(** What a signed token carries: the payload, the [iat] and [exp] claims in
    seconds since the epoch ([exp] when it has one), and the secret that signed
    it (standing for the signature). *)
Record token := mkToken
  { claims : payload;
    iat : Z;
    exp : option Z;
    key : string }.

(** Why a token that was sent does not verify. *)
Inductive failure := expired | invalid.
End Jwt.

(** The JWT plugin is not code of this repository either.  [sign secret now
    payload expiresIn] is the token, or [None] when the plugin throws;
    [verify secret now token] is the failure, or [None] when the token
    verifies.  How [expiresIn] is read and when a token expires is the
    plugin's; what the handlers rely on is that a token carries the payload it
    was signed with and that the span "7d" is one the plugin signs. *)
Class JwtPlugin := mkJwtPlugin
  { sign : string -> DateTime -> Jwt.payload -> string -> option Jwt.token;
    verify : string -> DateTime -> Jwt.token -> option Jwt.failure;
    sign_claims : forall secret now p expiresIn t,
      sign secret now p expiresIn = Some t -> Jwt.claims t = p;
    signs_7d : forall secret now p, sign secret now p "7d" <> None }.

(** ** Errors and replies *)

(** What a handler or a hook can throw. *)
Inductive Error :=
| ZodError                               (* schema.parse rejected its input *)
| PrismaKnownRequestError (code : string) (* P2002, P2014, P2025 *)
| PrismaValidationError                  (* an Invalid Date among the arguments *)
| JwtSignError                           (* the plugin refused to sign *)
| FST_JWT_NO_AUTHORIZATION_IN_HEADER
| FST_JWT_AUTHORIZATION_TOKEN_EXPIRED
| FST_JWT_AUTHORIZATION_TOKEN_INVALID.

(** [error.statusCode], which only the JWT plugin's errors carry. *)
Definition statusCode (e : Error) : option nat :=
  match e with
  | FST_JWT_NO_AUTHORIZATION_IN_HEADER
  | FST_JWT_AUTHORIZATION_TOKEN_EXPIRED
  | FST_JWT_AUTHORIZATION_TOKEN_INVALID => Some 401
  | _ => None
  end.

Inductive Payload :=
| Empty
| Message (message : string)
| TokenBody (token : Jwt.token)
| DeviceBody (device : Device.t)
| DevicesBody (devices : list Device.t)
| DeviceEventBody (deviceEvent : DeviceEvent.t)
| DeviceEventsBody (deviceEvents : list DeviceEvent.t)
| ErrorBody (error : Error).

Record Reply := mkReply
  { status : nat;
    payload : Payload }.

(** [reply.send(err)] and Fastify's default error handler: the error's own
    status code, 500 when it has none. *)
Definition send_error (e : Error) : Reply :=
  mkReply (match statusCode e with Some c => c | None => 500 end) (ErrorBody e).

(** ** The store and the handler monad *)

(** The calls made on [databaseClient], in the order they are made. *)
Inductive Query :=
| user_findFirst_q (email : string)
| user_create_q (email : string)
| device_findFirst_q (serialNumber : string)
| device_create_q (serialNumber : string)
| device_delete_q (id : ObjectId)
| device_findMany_q (ids : list ObjectId)
| userDevice_create_q (userId deviceId : ObjectId)
| userDevice_deleteMany_q (userId deviceId : ObjectId)
| userDevice_findMany_q (userId : ObjectId)
| deviceEvent_findMany_q (deviceId : ObjectId)
| deviceEvent_create_q (deviceId : ObjectId).

Record World := mkWorld
  { db : DB;
    queries : list Query }.

Inductive Result (A : Type) :=
| Return (a : A)
| Throw (e : Error).
Arguments Return {A} a.
Arguments Throw {A} e.

(** An [async] computation: it runs on the store, returns or throws, and
    leaves the store as it is at that point (nothing is rolled back). *)
Definition M (A : Type) := World -> Result A * World.

Definition ret {A} (a : A) : M A := fun w => (Return a, w).

Definition throw {A} (e : Error) : M A := fun w => (Throw e, w).

Definition bind {A B} (c : M A) (k : A -> M B) : M B :=
  fun w =>
    match c w with
    | (Return a, w') => k a w'
    | (Throw e, w') => (Throw e, w')
    end.

Notation "x <- c ;; k" := (bind c (fun x => k))
  (at level 61, c at next level, right associativity).
Notation "' p <- c ;; k" := (bind c (fun x => match x with p => k end))
  (at level 61, p pattern, c at next level, right associativity).
Notation "c ;;; k" := (bind c (fun _ => k))
  (at level 61, right associativity).

(** [schema.parse(x)]: the parsed value, or a thrown [ZodError]. *)
Definition parse {A} (r : option A) : M A :=
  match r with
  | Some a => ret a
  | None => throw ZodError
  end.

Definition query (q : Query) : M unit :=
  fun w => (Return tt, mkWorld (db w) (queries w ++ [q])).

Definition get_db : M DB := fun w => (Return (db w), w).

Definition put_db (d : DB) : M unit := fun w => (Return tt, mkWorld d (queries w)).

(** [@default(auto())]. *)
Definition auto_id : M ObjectId :=
  d <- get_db ;;
  put_db (mkDB (users d) (devices d) (userDevices d) (deviceEvents d) (N.succ (nextId d))) ;;;
  ret (nextId d).

(** ** The Prisma client *)

Definition user_findFirst (email : string) : M (option User.t) :=
  query (user_findFirst_q email) ;;;
  d <- get_db ;;
  ret (find (fun u => String.eqb (User.email u) email) (users d)).

(** [email] is [@unique]: a second row with the same email is refused. *)
Definition user_create (now : DateTime) (email password : string) : M User.t :=
  query (user_create_q email) ;;;
  d <- get_db ;;
  if existsb (fun u => String.eqb (User.email u) email) (users d)
  then throw (PrismaKnownRequestError "P2002")
  else
    i <- auto_id ;;
    d <- get_db ;;
    let user := User.mk i email password now in
    put_db (mkDB (users d ++ [user]) (devices d) (userDevices d) (deviceEvents d) (nextId d)) ;;;
    ret user.

Definition device_findFirst (serialNumber : string) : M (option Device.t) :=
  query (device_findFirst_q serialNumber) ;;;
  d <- get_db ;;
  ret (find (fun x => String.eqb (Device.serialNumber x) serialNumber) (devices d)).

(** [serialNumber] is [@unique]. *)
Definition device_create (now : DateTime) (serialNumber : string) : M Device.t :=
  query (device_create_q serialNumber) ;;;
  d <- get_db ;;
  if existsb (fun x => String.eqb (Device.serialNumber x) serialNumber) (devices d)
  then throw (PrismaKnownRequestError "P2002")
  else
    i <- auto_id ;;
    d <- get_db ;;
    let device := Device.mk i serialNumber now in
    put_db (mkDB (users d) (devices d ++ [device]) (userDevices d) (deviceEvents d) (nextId d)) ;;;
    ret device.

(** [device.findMany({ where: { id: { in: ids } } })]. *)
Definition device_findMany (ids : list ObjectId) : M (list Device.t) :=
  query (device_findMany_q ids) ;;;
  d <- get_db ;;
  ret (filter (fun x => existsb (N.eqb (Device.id x)) ids) (devices d)).

Definition references (id : ObjectId) (d : DB) : bool :=
  existsb (fun l => N.eqb (UserDevice.deviceId l) id) (userDevices d)
  || existsb (fun e => N.eqb (DeviceEvent.deviceId e) id) (deviceEvents d).

(** [device.delete({ where: { id } })]: P2025 when there is no such row, P2014
    when the engine restricts and the row is still referenced. *)
Definition device_delete `{PrismaEngine} (id : ObjectId) : M Device.t :=
  query (device_delete_q id) ;;;
  d <- get_db ;;
  match find (fun x => N.eqb (Device.id x) id) (devices d) with
  | None => throw (PrismaKnownRequestError "P2025")
  | Some device =>
      let remove :=
        put_db (mkDB (users d)
                     (filter (fun x => negb (N.eqb (Device.id x) id)) (devices d))
                     (userDevices d) (deviceEvents d) (nextId d)) ;;;
        ret device in
      match onDelete with
      | Restrict =>
          if references id d then throw (PrismaKnownRequestError "P2014") else remove
      | NoAction => remove
      end
  end.

(** No uniqueness is declared on [(userId, deviceId)]. *)
Definition userDevice_create (userId deviceId : ObjectId) : M UserDevice.t :=
  query (userDevice_create_q userId deviceId) ;;;
  i <- auto_id ;;
  d <- get_db ;;
  let link := UserDevice.mk i userId deviceId in
  put_db (mkDB (users d) (devices d) (userDevices d ++ [link]) (deviceEvents d) (nextId d)) ;;;
  ret link.

Definition link_matches (userId deviceId : ObjectId) (l : UserDevice.t) : bool :=
  N.eqb (UserDevice.userId l) userId && N.eqb (UserDevice.deviceId l) deviceId.

(** [userDevice.deleteMany({ where: { userId, deviceId } })]; the count of
    removed rows is returned. *)
Definition userDevice_deleteMany (userId deviceId : ObjectId) : M nat :=
  query (userDevice_deleteMany_q userId deviceId) ;;;
  d <- get_db ;;
  put_db (mkDB (users d) (devices d)
               (filter (fun l => negb (link_matches userId deviceId l)) (userDevices d))
               (deviceEvents d) (nextId d)) ;;;
  ret (List.length (filter (link_matches userId deviceId) (userDevices d))).

Definition userDevice_findMany (userId : ObjectId) : M (list UserDevice.t) :=
  query (userDevice_findMany_q userId) ;;;
  d <- get_db ;;
  ret (filter (fun l => N.eqb (UserDevice.userId l) userId) (userDevices d)).

(** The [happenedAt] condition of a [where]: each bound is absent or a
    [Date]. *)
Record DateTimeFilter := mkFilter
  { lte : option JsDate;
    gte : option JsDate }.

Definition valid_bound (b : option JsDate) : bool :=
  match b with
  | Some None => false
  | _ => true
  end.

Definition satisfies (f : DateTimeFilter) (t : DateTime) : bool :=
  match lte f with Some (Some hi) => (t <=? hi)%Z | _ => true end
  && match gte f with Some (Some lo) => (lo <=? t)%Z | _ => true end.

(** [deviceEvent.findMany({ where: { deviceId, ...queryArgs } })], where
    [queryArgs] is [{}] or [{ happenedAt }]. *)
Definition deviceEvent_findMany (deviceId : ObjectId) (happenedAt : option DateTimeFilter)
  : M (list DeviceEvent.t) :=
  query (deviceEvent_findMany_q deviceId) ;;;
  d <- get_db ;;
  match happenedAt with
  | None =>
      ret (filter (fun e => N.eqb (DeviceEvent.deviceId e) deviceId) (deviceEvents d))
  | Some f =>
      if valid_bound (lte f) && valid_bound (gte f)
      then ret (filter (fun e => N.eqb (DeviceEvent.deviceId e) deviceId
                                 && satisfies f (DeviceEvent.happenedAt e))
                       (deviceEvents d))
      else throw PrismaValidationError
  end.

(** The [data] of [deviceEvent.create]; [happenedAt] is passed as the string
    the schema validated. *)
Record EventData := mkEventData
  { ev_macAddress : string;
    ev_ipAddress : string;
    ev_soilMoisture : float;
    ev_humidity : float;
    ev_temperature : float;
    ev_lighIntensity : float;
    ev_happenedAt : string }.

Definition deviceEvent_create `{DateParser} (now : DateTime) (deviceId : ObjectId)
    (data : EventData) : M DeviceEvent.t :=
  query (deviceEvent_create_q deviceId) ;;;
  match newDate (ev_happenedAt data) with
  | None => throw PrismaValidationError
  | Some t =>
      i <- auto_id ;;
      d <- get_db ;;
      let deviceEvent :=
        DeviceEvent.mk i deviceId (ev_macAddress data) (ev_ipAddress data)
          (Some (ev_soilMoisture data)) (Some (ev_humidity data))
          (Some (ev_temperature data)) (Some (ev_lighIntensity data)) t now in
      put_db (mkDB (users d) (devices d) (userDevices d) (deviceEvents d ++ [deviceEvent])
                   (nextId d)) ;;;
      ret deviceEvent
  end.

(** ** Signing and verifying tokens *)

(** [app.jwt.sign(payload, { expiresIn })], with the secret the plugin was
    registered with. *)
Definition jwt_sign `{JwtPlugin} (env : Env) (now : DateTime) (p : Jwt.payload)
    (expiresIn : string) : M Jwt.token :=
  match sign (JWT_SECRET_KEY env) now p expiresIn with
  | Some token => ret token
  | None => throw JwtSignError
  end.

(** [request.jwtVerify()]: the payload of the bearer token. *)
Definition jwtVerify `{JwtPlugin} (env : Env) (now : DateTime)
    (authorization : option Jwt.token) : Result Jwt.payload :=
  match authorization with
  | None => Throw FST_JWT_NO_AUTHORIZATION_IN_HEADER
  | Some t =>
      match verify (JWT_SECRET_KEY env) now t with
      | Some Jwt.expired => Throw FST_JWT_AUTHORIZATION_TOKEN_EXPIRED
      | Some Jwt.invalid => Throw FST_JWT_AUTHORIZATION_TOKEN_INVALID
      | None => Return (Jwt.claims t)
      end
  end.

(** ** The zod schemas of the handlers *)

Definition z_string (v : option JValue) : option string :=
  match v with
  | Some (JString s) => Some s
  | _ => None
  end.

Definition z_number (v : option JValue) : option float :=
  match v with
  | Some (JNumber x) => if PrimFloat.is_nan x then None else Some x
  | _ => None
  end.

(** [z.object({ email: z.string().email(), password: z.string() })]. *)
Definition userSchema `{Zod} (body : JObject) : option (string * string) :=
  match z_string (prop "email" body), z_string (prop "password" body) with
  | Some email, Some password =>
      if z_email email then Some (email, password) else None
  | _, _ => None
  end.

(** [z.object({ serialNumber: z.string() })]. *)
Definition deviceSchema (body : JObject) : option string :=
  z_string (prop "serialNumber" body).

(** [z.optional(z.string().datetime())]. *)
Definition z_optional_datetime `{Zod} (v : option string) : option (option string) :=
  match v with
  | None => Some None
  | Some s => if z_datetime s then Some (Some s) else None
  end.

Definition queryParamsSchema `{Zod} (q : Querystring)
  : option (option string * option string) :=
  match z_optional_datetime (startDate q), z_optional_datetime (endDate q) with
  | Some s, Some e => Some (s, e)
  | _, _ => None
  end.

(** The [eventSchema] of the ingestion route: seven required fields. *)
Definition eventSchema `{Zod} (body : JObject) : option EventData :=
  match z_string (prop "macAddress" body),
        z_string (prop "ipAddress" body),
        z_number (prop "soilMoisture" body),
        z_number (prop "humidity" body),
        z_number (prop "temperature" body),
        z_number (prop "lighIntensity" body),
        z_string (prop "happenedAt" body) with
  | Some macAddress, Some ipAddress, Some soilMoisture, Some humidity,
    Some temperature, Some lighIntensity, Some happenedAt =>
      if z_ip ipAddress && z_datetime happenedAt
      then Some (mkEventData macAddress ipAddress soilMoisture humidity
                             temperature lighIntensity happenedAt)
      else None
  | _, _, _, _, _, _, _ => None
  end.

(** ** Requests, the hook and the decorator *)

Inductive Route :=
| POST_auth_register (body : JObject)
| POST_auth_login (body : JObject)
| POST_devices (body : JObject)
| DELETE_devices_id (id : ObjectId)
| GET_devices
| GET_devices_events (serialNumber : option string) (query : Querystring)
| POST_devices_events (serialNumber : option string) (body : JObject).

Record Request := mkRequest
  { x_api_key : option string;            (* request.headers["x-api-key"] *)
    authorization : option Jwt.token;     (* the bearer token, when one is sent *)
    route : Route }.

(** Routes registered with [{ onRequest: [app.authenticate] }]. *)
Definition authenticated (r : Route) : bool :=
  match r with
  | POST_devices _ | DELETE_devices_id _ | GET_devices | GET_devices_events _ _ => true
  | POST_auth_register _ | POST_auth_login _ | POST_devices_events _ _ => false
  end.

(** [app.addHook("onRequest", ...)]: the reply it sends, or [None] when it
    calls [done()].  It is added on the application, for every route. *)
Definition onRequest (env : Env) (request : Request) : option Reply :=
  if negb (strict_eq (API_KEY env) (x_api_key request))
  then Some (mkReply 403 Empty)
  else None.

(** [app.authenticate]: [request.user] when [jwtVerify] succeeds, the error
    reply it sends otherwise. *)
Definition authenticate `{JwtPlugin} (env : Env) (now : DateTime) (request : Request)
  : Jwt.payload + Reply :=
  match jwtVerify env now (authorization request) with
  | Return user => inl user
  | Throw err => inr (send_error err)
  end.

(** ** The route handlers *)

Definition post_auth_register `{Zod} `{Bcrypt} `{JwtPlugin} (env : Env) (now : DateTime)
    (body : JObject) : M Reply :=
  '(email, password) <- parse (userSchema body) ;;
  userAlreadyExists <- user_findFirst email ;;
  match userAlreadyExists with
  | Some _ => ret (mkReply 409 (Message "User already exists"))
  | None =>
      let passwordHash := hash password 8 in
      user <- user_create now email passwordHash ;;
      token <- jwt_sign env now (Jwt.mkPayload (User.id user) (User.email user))
                        (or_else (JWT_EXPIRES_IN env) "1d") ;;
      ret (mkReply 201 (TokenBody token))
  end.

Definition post_auth_login `{Zod} `{Bcrypt} `{JwtPlugin} (env : Env) (now : DateTime)
    (body : JObject) : M Reply :=
  '(email, password) <- parse (userSchema body) ;;
  userAlreadyExists <- user_findFirst email ;;
  match userAlreadyExists with
  | None => ret (mkReply 401 (Message "Email or password incorrect"))
  | Some userAlreadyExists =>
      let passwordMatch := compare password (User.password userAlreadyExists) in
      if negb passwordMatch
      then ret (mkReply 401 (Message "Email or password incorrect"))
      else
        token <- jwt_sign env now
                   (Jwt.mkPayload (User.id userAlreadyExists) (User.email userAlreadyExists))
                   "7d" ;;
        ret (mkReply 200 (TokenBody token))
  end.

Definition post_devices (now : DateTime) (user : Jwt.payload) (body : JObject) : M Reply :=
  serialNumber <- parse (deviceSchema body) ;;
  deviceAlreadyExists <- device_findFirst serialNumber ;;
  match deviceAlreadyExists with
  | Some deviceAlreadyExists => ret (mkReply 201 (DeviceBody deviceAlreadyExists))
  | None =>
      device <- device_create now serialNumber ;;
      userDevice_create (Jwt.id user) (Device.id device) ;;;
      ret (mkReply 201 (DeviceBody device))
  end.

Definition delete_devices_id `{PrismaEngine} (user : Jwt.payload) (id : ObjectId)
  : M Reply :=
  userDevice_deleteMany (Jwt.id user) id ;;;
  device_delete id ;;;
  ret (mkReply 200 Empty).

Definition get_devices (user : Jwt.payload) : M Reply :=
  userDevices <- userDevice_findMany (Jwt.id user) ;;
  let deviceIds := map UserDevice.deviceId userDevices in
  devices <- device_findMany deviceIds ;;
  ret (mkReply 200 (DevicesBody devices)).

(** The path parameter once [!serialNumber] has been found false. *)
Definition given (serialNumber : option string) : string :=
  match serialNumber with Some s => s | None => "" end.

(** The three [if]s that fill [queryArgs.happenedAt]. *)
Definition queryArgs `{DateParser} (startDate endDate : option string)
  : option DateTimeFilter :=
  let date (s : option string) : JsDate :=
    match s with Some s => newDate s | None => None end in
  let queryArgs := None in
  let queryArgs :=
    if truthy startDate && truthy endDate
    then Some (mkFilter (Some (date endDate)) (Some (date startDate)))
    else queryArgs in
  let queryArgs :=
    if truthy startDate && negb (truthy endDate)
    then Some (mkFilter None (Some (date startDate)))
    else queryArgs in
  let queryArgs :=
    if negb (truthy startDate) && truthy endDate
    then Some (mkFilter (Some (date endDate)) None)
    else queryArgs in
  queryArgs.

Definition get_devices_events `{Zod} `{DateParser} (user : Jwt.payload)
    (serialNumber : option string) (query : Querystring) : M Reply :=
  if negb (truthy serialNumber)
  then ret (mkReply 400 (Message "Serial number must be provided"))
  else
    let serialNumber := given serialNumber in
    device <- device_findFirst serialNumber ;;
    match device with
    | None => ret (mkReply 404 (Message "Can not find the device"))
    | Some device =>
        '(startDate, endDate) <- parse (queryParamsSchema query) ;;
        deviceEvents <- deviceEvent_findMany (Device.id device) (queryArgs startDate endDate) ;;
        ret (mkReply 200 (DeviceEventsBody deviceEvents))
    end.

Definition post_devices_events `{Zod} `{DateParser} (now : DateTime)
    (serialNumber : option string) (body : JObject) : M Reply :=
  data <- parse (eventSchema body) ;;
  if negb (truthy serialNumber)
  then ret (mkReply 400 (Message "Serial number must be provided"))
  else
    let serialNumber := given serialNumber in
    device <- device_findFirst serialNumber ;;
    device <- match device with
              | Some device => ret device
              | None => device_create now serialNumber
              end ;;
    deviceEvent <- deviceEvent_create now (Device.id device) data ;;
    ret (mkReply 201 (DeviceEventBody deviceEvent)).

(** ** The application: one request against the store *)

(** A handler's reply, or the error reply when it throws. *)
Definition run (h : M Reply) (w : World) : Reply * World :=
  match h w with
  | (Return r, w') => (r, w')
  | (Throw e, w') => (send_error e, w')
  end.

Definition handler `{Zod} `{Bcrypt} `{DateParser} `{JwtPlugin} `{PrismaEngine}
    (env : Env) (now : DateTime) (user : Jwt.payload) (r : Route) : M Reply :=
  match r with
  | POST_auth_register body => post_auth_register env now body
  | POST_auth_login body => post_auth_login env now body
  | POST_devices body => post_devices now user body
  | DELETE_devices_id id => delete_devices_id user id
  | GET_devices => get_devices user
  | GET_devices_events serialNumber query => get_devices_events user serialNumber query
  | POST_devices_events serialNumber body => post_devices_events now serialNumber body
  end.

(** [request.user] on a route that does not authenticate is never read. *)
Definition anonymous : Jwt.payload := Jwt.mkPayload 0%N "".

(** The request lifecycle: the application's [onRequest] hook, then the
    route's own [onRequest] hooks, then the handler. *)
Definition inject `{Zod} `{Bcrypt} `{DateParser} `{JwtPlugin} `{PrismaEngine}
    (env : Env) (now : DateTime) (request : Request) (w : World) : Reply * World :=
  match onRequest env request with
  | Some reply => (reply, w)
  | None =>
      if authenticated (route request)
      then match authenticate env now request with
           | inl user => run (handler env now user (route request)) w
           | inr reply => (reply, w)
           end
      else run (handler env now anonymous (route request)) w
  end.

(** ** Reference collaborators

    One implementation of each interface, for running the application on
    concrete requests. *)

(** Time spans in the short forms of the [ms] format: a decimal number and an
    optional unit. *)
Definition digit_of (c : ascii) : option Z :=
  let n := Z.of_nat (nat_of_ascii c) in
  if (48 <=? n)%Z && (n <=? 57)%Z then Some (n - 48)%Z else None.

Fixpoint read_number (acc : option Z) (s : string) : option Z * string :=
  match s with
  | EmptyString => (acc, s)
  | String c s' =>
      match digit_of c with
      | Some d =>
          read_number (Some (10 * match acc with Some a => a | None => 0 end + d)%Z) s'
      | None => (acc, s)
      end
  end.

Definition unit_ms (u : string) : option Z :=
  if String.eqb u "" then Some 1%Z
  else if String.eqb u "ms" then Some 1%Z
  else if String.eqb u "s" then Some 1000%Z
  else if String.eqb u "m" then Some 60000%Z
  else if String.eqb u "h" then Some 3600000%Z
  else if String.eqb u "d" then Some 86400000%Z
  else if String.eqb u "w" then Some 604800000%Z
  else if String.eqb u "y" then Some 31557600000%Z
  else None.

Definition ms (span : string) : option Z :=
  match read_number None span with
  | (Some n, u) =>
      match unit_ms u with
      | Some f => Some (n * f)%Z
      | None => None
      end
  | (None, _) => None
  end.

(** Exactly [n] decimal digits at the head of [s]: their value and the rest. *)
Fixpoint digits (n : nat) (acc : Z) (s : string) : option (Z * string) :=
  match n with
  | O => Some (acc, s)
  | S n' =>
      match s with
      | String c s' =>
          match digit_of c with
          | Some d => digits n' (10 * acc + d)%Z s'
          | None => None
          end
      | EmptyString => None
      end
  end.

Definition expect (c : ascii) (s : string) : option string :=
  match s with
  | String c' s' => if Ascii.eqb c c' then Some s' else None
  | EmptyString => None
  end.

(** The fraction of a second after the point, in milliseconds: one digit or
    more up to the closing [Z]; digits past the third are dropped. *)
Fixpoint fraction (scale : Z) (seen : bool) (acc : Z) (s : string) : option Z :=
  match s with
  | String c s' =>
      match digit_of c with
      | Some d => fraction (scale / 10) true (acc + d * scale)%Z s'
      | None => if seen && String.eqb s "Z" then Some acc else None
      end
  | EmptyString => None
  end.

Record Civil := mkCivil
  { year : Z; month : Z; day : Z; hour : Z; minute : Z; second : Z; milli : Z }.

(** [YYYY-MM-DDTHH:MM:SS(.f+)?Z], the shape [z.string().datetime()] asks for. *)
Definition iso_shape (s : string) : option Civil :=
  match digits 4 0 s with
  | Some (y, s) =>
  match expect "-" s with Some s =>
  match digits 2 0 s with Some (mo, s) =>
  match expect "-" s with Some s =>
  match digits 2 0 s with Some (d, s) =>
  match expect "T" s with Some s =>
  match digits 2 0 s with Some (h, s) =>
  match expect ":" s with Some s =>
  match digits 2 0 s with Some (mi, s) =>
  match expect ":" s with Some s =>
  match digits 2 0 s with Some (se, s) =>
    if String.eqb s "Z" then Some (mkCivil y mo d h mi se 0)
    else match expect "." s with
         | Some s =>
             match fraction 100 false 0 s with
             | Some f => Some (mkCivil y mo d h mi se f)
             | None => None
             end
         | None => None
         end
  | None => None end | None => None end | None => None end | None => None end
  | None => None end | None => None end | None => None end | None => None end
  | None => None end | None => None end
  | None => None
  end.

Definition leap (y : Z) : bool :=
  ((y mod 4 =? 0) && negb (y mod 100 =? 0) || (y mod 400 =? 0))%Z.

Definition days_in_month (y m : Z) : Z :=
  if (m =? 2)%Z then (if leap y then 29 else 28)%Z
  else if ((m =? 4) || (m =? 6) || (m =? 9) || (m =? 11))%Z then 30%Z
  else 31%Z.

(** Days from 1970-01-01 to the civil date. *)
Definition days_from_civil (y m d : Z) : Z :=
  let y := if (m <=? 2)%Z then (y - 1)%Z else y in
  let era := (y / 400)%Z in
  let yoe := (y - era * 400)%Z in
  let doy := ((153 * (if (2 <? m)%Z then m - 3 else m + 9) + 2) / 5 + d - 1)%Z in
  let doe := (yoe * 365 + yoe / 4 - yoe / 100 + doy)%Z in
  (era * 146097 + doe - 719468)%Z.

Definition iso_date (s : string) : JsDate :=
  match iso_shape s with
  | Some c =>
      if ((1 <=? month c) && (month c <=? 12) && (1 <=? day c)
          && (day c <=? days_in_month (year c) (month c))
          && (hour c <=? 23) && (minute c <=? 59) && (second c <=? 59))%Z
      then Some ((((days_from_civil (year c) (month c) (day c) * 24 + hour c) * 60
                   + minute c) * 60 + second c) * 1000 + milli c)%Z
      else None
  | None => None
  end.

Definition iso_datetime (s : string) : bool :=
  match iso_shape s with Some _ => true | None => false end.

(** A local part, one [@], and a dotted domain, all without spaces. *)
Fixpoint count (c : ascii) (s : string) : nat :=
  match s with
  | EmptyString => O
  | String c' s' => (if Ascii.eqb c c' then 1 else 0) + count c s'
  end.

Fixpoint after (c : ascii) (s : string) : string :=
  match s with
  | EmptyString => EmptyString
  | String c' s' => if Ascii.eqb c c' then s' else after c s'
  end.

Definition simple_email (s : string) : bool :=
  Nat.eqb (count "@" s) 1 && Nat.eqb (count " " s) 0
  && negb (String.eqb (after "@" s) "")
  && negb (String.prefix "@" s)
  && Nat.leb 1 (count "." (after "@" s))
  && negb (String.eqb (after "." (after "@" s)) "").

(** Dotted-quad IPv4. *)
Fixpoint octets (fuel : nat) (s : string) : option (list Z) :=
  match fuel with
  | O => None
  | S fuel' =>
      match read_number None s with
      | (Some n, rest) =>
          if (n <=? 255)%Z
          then if String.eqb rest "" then Some [n]
               else match expect "." rest with
                    | Some rest' =>
                        match octets fuel' rest' with
                        | Some l => Some (n :: l)
                        | None => None
                        end
                    | None => None
                    end
          else None
      | (None, _) => None
      end
  end.

Definition ipv4 (s : string) : bool :=
  match octets 4 s with
  | Some l => Nat.eqb (List.length l) 4
  | None => false
  end.

Definition zod : Zod := mkZod simple_email ipv4 iso_datetime eq_refl.

(** A stand-in for bcrypt: the digest names the cost and the password. *)
Definition bcrypt : Bcrypt :=
  mkBcrypt (fun data rounds => "$2b$08$" ++ data)
           (fun data encrypted => String.eqb encrypted ("$2b$08$" ++ data)).

Definition dates : DateParser := mkDateParser iso_date.

(** A stand-in for the JWT plugin: [iat] is the clock in whole seconds, [exp]
    is [iat] plus the span in whole seconds, left out when the span is not
    read or is zero; a token verifies under the secret that signed it for as
    long as the clock has not passed [exp]. *)
Definition reference_sign (secret : string) (now : DateTime) (p : Jwt.payload)
    (expiresIn : string) : option Jwt.token :=
  if String.prefix "-" expiresIn then None
  else
    let iat := (now / 1000)%Z in
    Some (Jwt.mkToken p iat
            match ms expiresIn with
            | Some span => if (span =? 0)%Z then None else Some (iat + span / 1000)%Z
            | None => None
            end
            secret).

Definition reference_verify (secret : string) (now : DateTime) (t : Jwt.token)
  : option Jwt.failure :=
  if negb (String.eqb (Jwt.key t) secret) then Some Jwt.invalid
  else match Jwt.exp t with
       | Some e => if (e * 1000 <? now)%Z then Some Jwt.expired else None
       | None => None
       end.

Lemma reference_sign_claims (secret : string) (now : DateTime) (p : Jwt.payload)
    (expiresIn : string) (t : Jwt.token) :
  reference_sign secret now p expiresIn = Some t -> Jwt.claims t = p.
Proof.
  unfold reference_sign. destruct (String.prefix "-" expiresIn); [discriminate|].
  intros E. injection E as <-. reflexivity.
Qed.

Lemma reference_signs_7d (secret : string) (now : DateTime) (p : Jwt.payload) :
  reference_sign secret now p "7d" <> None.
Proof. discriminate. Qed.

Definition jwt : JwtPlugin :=
  mkJwtPlugin reference_sign reference_verify reference_sign_claims reference_signs_7d.

(** The application with the reference collaborators, for each engine. *)
Definition server (action : ReferentialAction) : Env -> DateTime -> Request -> World -> Reply * World :=
  @inject zod bcrypt dates jwt (mkEngine action).

(** ** A run of the application

    Two users register, the first registers device "S1", the device reports
    one event.  The requests below are the ones the properties are tried on. *)

Definition env0 : Env := mkEnv (Some "device-key") "jwt-secret" None.

Definition world0 : World := mkWorld emptyDB [].

Definition credentials (email password : string) : JObject :=
  [("email", JString email); ("password", JString password)].

Definition reading (happenedAt : string) : JObject :=
  [("macAddress", JString "00:1B:44:11:3A:B7");
   ("ipAddress", JString "192.168.0.7");
   ("soilMoisture", JNumber 41.5%float);
   ("humidity", JNumber 63%float);
   ("temperature", JNumber 21.25%float);
   ("lighIntensity", JNumber 800%float);
   ("happenedAt", JString happenedAt)].

(** The token of a [{ token }] reply. *)
Definition token_of (r : Reply) : option Jwt.token :=
  match payload r with
  | TokenBody t => Some t
  | _ => None
  end.

(** A request that carries the ingestion secret. *)
Definition keyed (token : option Jwt.token) (r : Route) : Request :=
  mkRequest (Some "device-key") token r.

Definition alice_registers : Reply * World :=
  server Restrict env0 1000%Z
    (keyed None (POST_auth_register (credentials "alice@example.com" "correct horse"))) world0.

Definition bob_registers : Reply * World :=
  server Restrict env0 2000%Z
    (keyed None (POST_auth_register (credentials "bob@example.com" "battery staple")))
    (snd alice_registers).

Definition alice : option Jwt.token := token_of (fst alice_registers).
Definition bob : option Jwt.token := token_of (fst bob_registers).

Definition alice_adds_S1 : Reply * World :=
  server Restrict env0 3000%Z
    (keyed alice (POST_devices [("serialNumber", JString "S1")])) (snd bob_registers).

(** Users 0 and 1, device 2 ("S1") linked to user 0 by link 3. *)
Definition world_linked : World := snd alice_adds_S1.

Definition S1_reports : Reply * World :=
  server Restrict env0 4000%Z
    (keyed None (POST_devices_events (Some "S1") (reading "2024-01-15T12:00:00Z")))
    world_linked.

(** [world_linked] and event 4 of device 2. *)
Definition world_reported : World := snd S1_reports.

(** Two more reports of "S1", one before January 2024 and one after:
    events 4, 5 and 6 of device 2. *)
Definition world_history : World :=
  snd (server Restrict env0 6000%Z
         (keyed None (POST_devices_events (Some "S1") (reading "2024-02-01T00:00:00Z")))
      (snd (server Restrict env0 5000%Z
         (keyed None (POST_devices_events (Some "S1") (reading "2023-12-31T00:00:00Z")))
         world_reported))).

Definition january : Querystring :=
  mkQuery (Some "2024-01-01T00:00:00Z") (Some "2024-01-31T23:59:59Z").

Definition no_dates : Querystring := mkQuery None None.

Definition alice_logs_in : Reply * World :=
  server Restrict env0 8000%Z
    (keyed None (POST_auth_login (credentials "alice@example.com" "correct horse")))
    world_reported.

(** [reading] without one of its properties. *)
Definition without (k : string) (o : JObject) : JObject :=
  filter (fun kv => negb (String.eqb (fst kv) k)) o.

(** ** The window of the specification

    The table of the event query planner, written from its rows: the
    predicate over [happenedAt] for each combination of bounds. *)
Definition in_window (startDate endDate : option DateTime) (happenedAt : DateTime) : bool :=
  match startDate, endDate with
  | None, None => true
  | Some s, None => (s <=? happenedAt)%Z
  | None, Some e => (happenedAt <=? e)%Z
  | Some s, Some e => (s <=? happenedAt)%Z && (happenedAt <=? e)%Z
  end.

(** A query parameter and the instant it denotes: absent, or a string the
    schema accepts and [new Date] reads as [t]. *)
Definition reads_as `{Zod} `{DateParser} (s : option string) (t : option DateTime) : Prop :=
  match s, t with
  | None, None => True
  | Some s, Some t => z_datetime s = true /\ newDate s = Some t
  | _, _ => False
  end.


(** The seconds between the [iat] and the [exp] of a token that has one. *)
Definition lifetime (t : Jwt.token) : option Z :=
  option_map (fun e => (e - Jwt.iat t)%Z) (Jwt.exp t).

(** ** Notions for the properties of the whole application *)

(** [l'] is [l] with rows added at the end: nothing removed, nothing altered. *)
Definition extends {A} (l l' : list A) : Prop := exists t, l' = (l ++ t)%list.

(** The two [@unique] columns hold distinct values. *)
Definition unique_keys (d : DB) : Prop :=
  NoDup (map User.email (users d)) /\ NoDup (map Device.serialNumber (devices d)).

(** The devices of a listing reply. *)
Definition listed (r : Reply) : list Device.t :=
  match payload r with
  | DevicesBody ds => ds
  | _ => []
  end.

(** A reply that carries the store's unique-constraint error. *)
Definition unique_violation (r : Reply) : bool :=
  match payload r with
  | ErrorBody (PrismaKnownRequestError code) => String.eqb code "P2002"
  | _ => false
  end.

(** The routes whose handler only calls [findFirst] and [findMany]. *)
Definition reads_only (r : Route) : bool :=
  match r with
  | POST_auth_login _ | GET_devices | GET_devices_events _ _ => true
  | _ => false
  end.

(** * Properties *)

(** Unfolds the monad of a handler down to matches on the store. *)
Ltac exec :=
  unfold run, parse, bind, ret, throw, query, get_db, put_db, auto_id in *; simpl in *.

Section Properties.

Context `{Zod} `{Bcrypt} `{DateParser} `{JwtPlugin} `{PrismaEngine}.

Lemma find_registered (email : string) (us : list User.t) (u : User.t) :
  In u us -> User.email u = email ->
  exists u', find (fun x => String.eqb (User.email x) email) us = Some u'.
Proof.
  induction us as [|x us IH]; simpl; [tauto|].
  intros [->|Hin] He.
  - rewrite He, String.eqb_refl. eauto.
  - destruct (String.eqb (User.email x) email); eauto.
Qed.

(** C8: registering an email that is already registered is answered 409
    "User already exists", and the store keeps the rows it had: no second
    User row is created. *)
Theorem register_existing_email_conflict
    (env : Env) (now : DateTime) (body : JObject) (email password : string)
    (w : World) (u : User.t) :
  userSchema body = Some (email, password) ->
  In u (users (db w)) ->
  User.email u = email ->
  fst (run (post_auth_register env now body) w) = mkReply 409 (Message "User already exists")
  /\ db (snd (run (post_auth_register env now body) w)) = db w.
Proof.
  intros Hbody Hin He.
  destruct (find_registered email _ u Hin He) as [u' Hfind].
  unfold post_auth_register. rewrite Hbody. exec.
  rewrite Hfind. simpl. split; reflexivity.
Qed.

(** C9: a login that fails because no user has the email and a login that
    fails because the password does not match the stored hash get the same
    reply, 401 "Email or password incorrect". *)
Theorem login_failures_identical
    (env1 env2 : Env) (now1 now2 : DateTime) (body1 body2 : JObject)
    (email1 password1 email2 password2 : string) (w1 w2 : World) (u : User.t) :
  userSchema body1 = Some (email1, password1) ->
  find (fun x => String.eqb (User.email x) email1) (users (db w1)) = None ->
  userSchema body2 = Some (email2, password2) ->
  find (fun x => String.eqb (User.email x) email2) (users (db w2)) = Some u ->
  compare password2 (User.password u) = false ->
  fst (run (post_auth_login env1 now1 body1) w1)
    = mkReply 401 (Message "Email or password incorrect")
  /\ fst (run (post_auth_login env2 now2 body2) w2)
    = fst (run (post_auth_login env1 now1 body1) w1).
Proof.
  intros Hb1 Hnone Hb2 Hsome Hcmp.
  unfold post_auth_login. rewrite Hb1, Hb2. exec.
  rewrite Hnone, Hsome. simpl. rewrite Hcmp. simpl. split; reflexivity.
Qed.

(** The device listing reads the store only. *)
Lemma get_devices_reads_db (user : Jwt.payload) (w w' : World) :
  db w = db w' ->
  fst (run (get_devices user) w) = fst (run (get_devices user) w').
Proof.
  intros E. unfold get_devices, userDevice_findMany, device_findMany. exec.
  rewrite E. reflexivity.
Qed.

(** C10: when a device with the requested serial number exists, POST /devices
    answers 201 with that device and changes nothing in the store: no Device
    row, no link for the requester, and the requester's listing is the same. *)
Theorem post_devices_existing_changes_nothing
    (now : DateTime) (user : Jwt.payload) (body : JObject) (serialNumber : string)
    (device : Device.t) (w : World) :
  deviceSchema body = Some serialNumber ->
  find (fun x => String.eqb (Device.serialNumber x) serialNumber) (devices (db w))
    = Some device ->
  fst (run (post_devices now user body) w) = mkReply 201 (DeviceBody device)
  /\ db (snd (run (post_devices now user body) w)) = db w
  /\ fst (run (get_devices user) (snd (run (post_devices now user body) w)))
     = fst (run (get_devices user) w).
Proof.
  intros Hbody Hfind.
  assert (E : run (post_devices now user body) w
              = (mkReply 201 (DeviceBody device),
                 mkWorld (db w) (queries w ++ [device_findFirst_q serialNumber]))).
  { unfold post_devices, device_findFirst. rewrite Hbody. exec. rewrite Hfind. reflexivity. }
  rewrite E. simpl. split; [reflexivity|]. split; [reflexivity|].
  apply get_devices_reads_db. reflexivity.
Qed.

(** A string the datetime schema accepts is not empty, hence truthy. *)
Lemma datetime_truthy (s : string) : z_datetime s = true -> truthy (Some s) = true.
Proof.
  intros Hs. simpl. destruct (String.eqb_spec s ""); [|reflexivity].
  subst s. rewrite z_datetime_nonempty in Hs. discriminate.
Qed.

Lemma truthy_nonempty (s : string) : s <> "" -> truthy (Some s) = true.
Proof.
  intros Hs. simpl. destruct (String.eqb_spec s ""); [contradiction|reflexivity].
Qed.

(** The filter the three [if]s build selects the window of the table. *)
Lemma queryArgs_window (startDate endDate : option string) (startAt endAt : option DateTime) :
  reads_as startDate startAt ->
  reads_as endDate endAt ->
  match queryArgs startDate endDate with
  | None => startAt = None /\ endAt = None
  | Some f =>
      valid_bound (lte f) && valid_bound (gte f) = true
      /\ forall t, satisfies f t = in_window startAt endAt t
  end.
Proof.
  unfold reads_as, queryArgs.
  destruct startDate as [s|], startAt as [a|]; try tauto;
    destruct endDate as [e|], endAt as [b|]; try tauto; intros Hs He.
  - destruct Hs as [Hs Hs'], He as [He He'].
    rewrite (datetime_truthy s Hs), (datetime_truthy e He). simpl.
    rewrite Hs', He'. split; [reflexivity|]. intros t. unfold satisfies. simpl.
    apply andb_comm.
  - destruct Hs as [Hs Hs']. rewrite (datetime_truthy s Hs). simpl.
    rewrite Hs'. split; [reflexivity|]. intros t. reflexivity.
  - destruct He as [He He']. rewrite (datetime_truthy e He). simpl.
    rewrite He'. split; [reflexivity|]. intros t. unfold satisfies. simpl.
    apply andb_true_r.
  - simpl. split; reflexivity.
Qed.

Lemma reads_as_parses (s : option string) (t : option DateTime) :
  reads_as s t -> z_optional_datetime s = Some s.
Proof.
  unfold reads_as, z_optional_datetime.
  destruct s, t; try tauto. intros [-> _]. reflexivity.
Qed.

(** C7: for a device that exists and bounds that are absent or well-formed
    dates, the listing is 200 with exactly the events of that device whose
    [happenedAt] lies in the window of the table: unconstrained, from
    [startDate] on, up to [endDate], or between the two, inclusive. *)
Theorem event_listing_window
    (user : Jwt.payload) (serialNumber : string) (device : Device.t)
    (query : Querystring) (startAt endAt : option DateTime) (w : World) :
  serialNumber <> "" ->
  find (fun x => String.eqb (Device.serialNumber x) serialNumber) (devices (db w))
    = Some device ->
  reads_as (startDate query) startAt ->
  reads_as (endDate query) endAt ->
  fst (run (get_devices_events user (Some serialNumber) query) w)
  = mkReply 200
      (DeviceEventsBody
         (filter (fun e => N.eqb (DeviceEvent.deviceId e) (Device.id device)
                           && in_window startAt endAt (DeviceEvent.happenedAt e))
                 (deviceEvents (db w)))).
Proof.
  intros Hsn Hfind Hs He.
  pose proof (queryArgs_window _ _ _ _ Hs He) as Hq.
  unfold get_devices_events. rewrite (truthy_nonempty _ Hsn). simpl.
  unfold device_findFirst, queryParamsSchema.
  rewrite (reads_as_parses _ _ Hs), (reads_as_parses _ _ He). exec.
  rewrite Hfind. simpl. unfold deviceEvent_findMany. exec.
  destruct (queryArgs (startDate query) (endDate query)) as [f|].
  - destruct Hq as [Hv Hsat]. rewrite Hv. simpl. do 2 f_equal.
    apply filter_ext. intros e. rewrite Hsat. reflexivity.
  - destruct Hq as [-> ->]. simpl. do 2 f_equal.
    apply filter_ext. intros e. rewrite andb_true_r. reflexivity.
Qed.


(** C1 (as the code has it): the device routes do not consult the ownership
    links.  The event listing gives every authenticated user the same result
    and answers 404 exactly when the serial number is given and no device has
    it; the delete route never answers 404: it answers 200, or 500 when the
    store throws. *)
Theorem device_routes_ignore_ownership
    (user user' : Jwt.payload) (serialNumber : option string) (query : Querystring)
    (id : ObjectId) (w : World) :
  get_devices_events user serialNumber query w
    = get_devices_events user' serialNumber query w
  /\ (status (fst (run (get_devices_events user serialNumber query) w)) = 404
      <-> truthy serialNumber = true
          /\ find (fun x => String.eqb (Device.serialNumber x) (given serialNumber))
                  (devices (db w)) = None)
  /\ (status (fst (run (delete_devices_id user id) w)) = 200
      \/ status (fst (run (delete_devices_id user id) w)) = 500).
Proof.
  split; [reflexivity|]. split.
  - unfold get_devices_events, given.
    destruct (truthy serialNumber) eqn:Ht; simpl.
    + unfold device_findFirst. exec.
      destruct (find _ (devices (db w))) as [d|] eqn:Hfind; simpl.
      * split; [|intros [_ E]; discriminate].
        destruct (queryParamsSchema query) as [[s e]|]; simpl;
          [|discriminate].
        unfold deviceEvent_findMany. exec.
        destruct (queryArgs s e) as [f|]; simpl; [|discriminate].
        destruct (valid_bound (lte f) && valid_bound (gte f)); simpl; discriminate.
      * split; [intros _; split; reflexivity | reflexivity].
    + exec. split; [discriminate | intros [E _]; discriminate].
  - unfold delete_devices_id, userDevice_deleteMany, device_delete. exec.
    destruct (find _ (devices (db w))); simpl; [|right; reflexivity].
    destruct onDelete; [|left; reflexivity].
    destruct (references id _); simpl; [right|left]; reflexivity.
Qed.


Lemma existsb_filter_out {A} (p : A -> bool) (l : list A) :
  existsb p (filter (fun x => negb (p x)) l) = false.
Proof.
  induction l as [|x l IH]; simpl; [reflexivity|].
  destruct (p x) eqn:E; simpl; [exact IH|]. rewrite E. exact IH.
Qed.

(** What the delete route does to the links, whether or not it succeeds. *)
Lemma delete_unlinks_requester (user : Jwt.payload) (id : ObjectId) (w : World) :
  userDevices (db (snd (run (delete_devices_id user id) w)))
  = filter (fun l => negb (link_matches (Jwt.id user) id l)) (userDevices (db w)).
Proof.
  unfold delete_devices_id, userDevice_deleteMany, device_delete. exec.
  destruct (find _ (devices (db w))); simpl; [|reflexivity].
  destruct onDelete; [|reflexivity].
  destruct (references id _); reflexivity.
Qed.


(** With an engine that restricts, a delete succeeds only when no link and no
    event references the device once the requester's links are removed. *)
Lemma restricted_delete_leaves_no_reference
    (user : Jwt.payload) (id : ObjectId) (w : World) :
  onDelete = Restrict ->
  status (fst (run (delete_devices_id user id) w)) = 200 ->
  references id (db (snd (run (delete_devices_id user id) w))) = false.
Proof.
  intros Hengine.
  unfold delete_devices_id, userDevice_deleteMany, device_delete. exec.
  rewrite Hengine.
  destruct (find _ (devices (db w))); simpl; [|discriminate].
  destruct (references id _) eqn:Href; simpl; [discriminate|].
  intros _. exact Href.
Qed.

Lemma find_none_false {A} (p : A -> bool) (l : list A) :
  find p l = None <-> existsb p l = false.
Proof.
  induction l as [|x l IH]; simpl; [tauto|].
  destruct (p x); simpl; [split; discriminate | exact IH].
Qed.

(** C3 (as the code has it): the two flows sign with different [expiresIn]
    options, and not the way round the specification has it.  The token of a
    login is the one the plugin signs for the span "7d", whatever the
    environment says; the token of a registration is the one it signs for
    [JWT_EXPIRES_IN] when that is set and not empty, and for "1d" otherwise. *)
Theorem token_expiry_options (env : Env) :
  (forall now body w email password u,
      userSchema body = Some (email, password) ->
      find (fun x => String.eqb (User.email x) email) (users (db w)) = Some u ->
      compare password (User.password u) = true ->
      exists token,
        sign (JWT_SECRET_KEY env) now (Jwt.mkPayload (User.id u) (User.email u)) "7d"
          = Some token
        /\ fst (run (post_auth_login env now body) w) = mkReply 200 (TokenBody token))
  /\ (forall now body w email password,
        userSchema body = Some (email, password) ->
        find (fun x => String.eqb (User.email x) email) (users (db w)) = None ->
        exists user,
          users (db (snd (run (post_auth_register env now body) w)))
            = (users (db w) ++ [user])%list
          /\ User.email user = email
          /\ fst (run (post_auth_register env now body) w)
             = match sign (JWT_SECRET_KEY env) now
                          (Jwt.mkPayload (User.id user) (User.email user))
                          match JWT_EXPIRES_IN env with
                          | Some span => if String.eqb span "" then "1d" else span
                          | None => "1d"
                          end with
               | Some token => mkReply 201 (TokenBody token)
               | None => send_error JwtSignError
               end)
  /\ (forall now body w v token,
        post_auth_login env now body w = (Return (mkReply 200 (TokenBody token)), v) ->
        exists user,
          In user (users (db w))
          /\ sign (JWT_SECRET_KEY env) now (Jwt.mkPayload (User.id user) (User.email user))
                  "7d"
             = Some token)
  /\ (forall now body w v token,
        post_auth_register env now body w = (Return (mkReply 201 (TokenBody token)), v) ->
        exists user,
          In user (users (db v))
          /\ sign (JWT_SECRET_KEY env) now (Jwt.mkPayload (User.id user) (User.email user))
                  match JWT_EXPIRES_IN env with
                  | Some span => if String.eqb span "" then "1d" else span
                  | None => "1d"
                  end
             = Some token).
Proof.
  assert (Hspan : or_else (JWT_EXPIRES_IN env) "1d"
                  = match JWT_EXPIRES_IN env with
                    | Some span => if String.eqb span "" then "1d" else span
                    | None => "1d"
                    end).
  { unfold or_else. destruct (JWT_EXPIRES_IN env) as [span|]; simpl;
      [destruct (String.eqb span "")|]; reflexivity. }
  split; [|split; [|split]].
  - intros now body w email password u Hbody Hfind Hcmp.
    destruct (sign (JWT_SECRET_KEY env) now
                (Jwt.mkPayload (User.id u) (User.email u)) "7d") as [t|] eqn:Hsign;
      [|exfalso; exact (signs_7d _ _ _ Hsign)].
    exists t. split; [reflexivity|].
    unfold post_auth_login, jwt_sign. rewrite Hbody. exec.
    rewrite Hfind. simpl. rewrite Hcmp. simpl. rewrite Hsign. reflexivity.
  - intros now body w email password Hbody Hfind.
    exists (User.mk (nextId (db w)) email (hash password 8) now).
    unfold post_auth_register, user_create, jwt_sign. rewrite Hbody. exec.
    rewrite Hfind. simpl. rewrite (proj1 (find_none_false _ _) Hfind). simpl.
    rewrite <- Hspan.
    destruct (sign _ now _ _); simpl; repeat split; reflexivity.
  - intros now body w v token. unfold post_auth_login.
    destruct (userSchema body) as [[email password]|]; exec; [|discriminate].
    unfold jwt_sign.
    destruct (find _ (users (db w))) as [u|] eqn:Hfind; simpl; [|discriminate].
    destruct (compare password (User.password u)); simpl; [|discriminate].
    destruct (sign _ now _ "7d") as [t|] eqn:Hsign; exec; [|discriminate].
    intros E. inversion E; subst. exists u. split; [|exact Hsign].
    apply find_some in Hfind. tauto.
  - intros now body w v token. unfold post_auth_register.
    destruct (userSchema body) as [[email password]|]; exec; [|discriminate].
    match goal with |- context [find ?f ?l] => destruct (find f l) as [u|] end;
      simpl; [discriminate|].
    unfold user_create, jwt_sign. exec.
    destruct (existsb _ (users (db w))); simpl; [discriminate|].
    rewrite Hspan.
    destruct (sign _ now _ _) as [t|] eqn:Hsign; exec; [|discriminate].
    intros E. inversion E; subst. simpl.
    eexists. split; [apply in_or_app; right; left; reflexivity|]. exact Hsign.
Qed.

(** C4 (as the code has it): the check of [x-api-key] is a hook of the whole
    application.  A request whose header differs from [API_KEY] is answered
    403 with an empty body on every route, the session-gated ones included and
    whatever token it carries, and the store is not touched. *)
Theorem api_key_gates_every_route
    (env : Env) (now : DateTime) (request : Request) (w : World) :
  strict_eq (API_KEY env) (x_api_key request) = false ->
  inject env now request w = (mkReply 403 Empty, w).
Proof.
  intros Hkey. unfold inject, onRequest. rewrite Hkey. reflexivity.
Qed.

(** The session gate of the user routes, behind the hook. *)
Lemma session_gate (env : Env) (now : DateTime) (request : Request) (w : World) (e : Error) :
  strict_eq (API_KEY env) (x_api_key request) = true ->
  authenticated (route request) = true ->
  jwtVerify env now (authorization request) = Throw e ->
  inject env now request w = (send_error e, w) /\ status (send_error e) = 401.
Proof.
  intros Hkey Hauth Hjwt. unfold inject, onRequest, authenticate.
  rewrite Hkey, Hauth, Hjwt. simpl. split; [reflexivity|].
  unfold jwtVerify in Hjwt. destruct (authorization request) as [t|].
  - destruct (verify _ now t) as [[|]|]; [| |discriminate];
      injection Hjwt as <-; reflexivity.
  - injection Hjwt as <-. reflexivity.
Qed.

(** C5 (as the code has it): the four readings are required by the schema of
    the ingestion route.  When one of them is absent, or is not a number, the
    parse throws before the store is asked anything: the reply is the error's
    500 and no event is stored. *)
Theorem event_readings_required
    (now : DateTime) (serialNumber : option string) (body : JObject) (w : World) :
  z_number (prop "soilMoisture" body) = None
  \/ z_number (prop "humidity" body) = None
  \/ z_number (prop "temperature" body) = None
  \/ z_number (prop "lighIntensity" body) = None ->
  run (post_devices_events now serialNumber body) w = (mkReply 500 (ErrorBody ZodError), w).
Proof.
  intros Hmissing.
  assert (E : eventSchema body = None).
  { unfold eventSchema.
    destruct (z_string (prop "macAddress" body)); [|reflexivity].
    destruct (z_string (prop "ipAddress" body)); [|reflexivity].
    destruct Hmissing as [-> | [-> | [-> | ->]]];
      repeat match goal with
             | |- context [match ?x with _ => _ end] => destruct x
             end; reflexivity. }
  unfold post_devices_events. rewrite E. reflexivity.
Qed.

(** An event that is stored has its four readings, none of them null. *)
Lemma stored_event_has_readings
    (now : DateTime) (serialNumber : option string) (body : JObject) (w w' : World)
    (e : DeviceEvent.t) :
  post_devices_events now serialNumber body w = (Return (mkReply 201 (DeviceEventBody e)), w') ->
  z_number (prop "soilMoisture" body) = DeviceEvent.soilMoisture e
  /\ z_number (prop "humidity" body) = DeviceEvent.humidity e
  /\ z_number (prop "temperature" body) = DeviceEvent.temperature e
  /\ z_number (prop "lighIntensity" body) = DeviceEvent.lighIntensity e
  /\ DeviceEvent.soilMoisture e <> None /\ DeviceEvent.humidity e <> None
  /\ DeviceEvent.temperature e <> None /\ DeviceEvent.lighIntensity e <> None.
Proof.
  unfold post_devices_events, eventSchema.
  destruct (z_string (prop "macAddress" body)); [|exec; discriminate].
  destruct (z_string (prop "ipAddress" body)); [|exec; discriminate].
  destruct (z_number (prop "soilMoisture" body)); [|exec; discriminate].
  destruct (z_number (prop "humidity" body)); [|exec; discriminate].
  destruct (z_number (prop "temperature" body)); [|exec; discriminate].
  destruct (z_number (prop "lighIntensity" body)); [|exec; discriminate].
  destruct (z_string (prop "happenedAt" body)); [|exec; discriminate].
  destruct (z_ip _ && z_datetime _); [|exec; discriminate].
  destruct (truthy serialNumber); [|exec; discriminate].
  unfold deviceEvent_create, device_findFirst, device_create. exec.
  destruct (find _ (devices (db w))); simpl.
  - destruct (newDate _); simpl; [|discriminate].
    intros E. inversion E; subst. simpl.
    repeat split; discriminate.
  - destruct (existsb _ (devices (db w))); simpl; [discriminate|].
    destruct (newDate _); simpl; [|discriminate].
    intros E. inversion E; subst. simpl.
    repeat split; discriminate.
Qed.

End Properties.

(** * The properties on the run of the application *)

(** Witness of C8: alice registers a second time. *)
Lemma register_existing_email_conflict_witness :
  fst (server Restrict env0 9000%Z
         (keyed None (POST_auth_register (credentials "alice@example.com" "another one")))
         world_reported)
    = mkReply 409 (Message "User already exists")
  /\ db (snd (server Restrict env0 9000%Z
                (keyed None (POST_auth_register (credentials "alice@example.com" "another one")))
                world_reported))
     = db world_reported.
Proof.
  apply (@register_existing_email_conflict zod bcrypt jwt env0 9000%Z
           (credentials "alice@example.com" "another one")
           "alice@example.com" "another one" world_reported
           (User.mk 0 "alice@example.com" "$2b$08$correct horse" 1000)).
  - reflexivity.
  - simpl. left. reflexivity.
  - reflexivity.
Defined.

(** Witness of C9: nobody has carol's email; alice's password is wrong. *)
Lemma login_failures_identical_witness :
  fst (server Restrict env0 9000%Z
         (keyed None (POST_auth_login (credentials "carol@example.com" "correct horse")))
         world_reported)
    = mkReply 401 (Message "Email or password incorrect")
  /\ fst (server Restrict env0 9500%Z
            (keyed None (POST_auth_login (credentials "alice@example.com" "wrong horse")))
            world_reported)
     = fst (server Restrict env0 9000%Z
              (keyed None (POST_auth_login (credentials "carol@example.com" "correct horse")))
              world_reported).
Proof.
  apply (@login_failures_identical zod bcrypt jwt env0 env0 9000%Z 9500%Z
           (credentials "carol@example.com" "correct horse")
           (credentials "alice@example.com" "wrong horse")
           "carol@example.com" "correct horse" "alice@example.com" "wrong horse"
           world_reported world_reported
           (User.mk 0 "alice@example.com" "$2b$08$correct horse" 1000));
    reflexivity.
Defined.

(** Witness of C10: bob posts the serial number of alice's device. *)
Lemma post_devices_existing_changes_nothing_witness :
  fst (server Restrict env0 9000%Z
         (keyed bob (POST_devices [("serialNumber", JString "S1")])) world_linked)
    = mkReply 201 (DeviceBody (Device.mk 2 "S1" 3000))
  /\ db (snd (server Restrict env0 9000%Z
                (keyed bob (POST_devices [("serialNumber", JString "S1")])) world_linked))
     = db world_linked
  /\ fst (run (get_devices (Jwt.mkPayload 1 "bob@example.com"))
              (snd (server Restrict env0 9000%Z
                      (keyed bob (POST_devices [("serialNumber", JString "S1")]))
                      world_linked)))
     = fst (run (get_devices (Jwt.mkPayload 1 "bob@example.com")) world_linked).
Proof.
  apply (post_devices_existing_changes_nothing 9000%Z (Jwt.mkPayload 1 "bob@example.com")
           [("serialNumber", JString "S1")] "S1" (Device.mk 2 "S1" 3000) world_linked);
    reflexivity.
Defined.

(** Witness of C7: January 2024 over events of 2023-12-31, 2024-01-15 and
    2024-02-01 is the event of 2024-01-15 alone. *)
Lemma event_listing_window_witness :
  fst (server Restrict env0 9000%Z
         (keyed alice (GET_devices_events (Some "S1") january)) world_history)
    = mkReply 200
        (DeviceEventsBody
           (filter (fun e => N.eqb (DeviceEvent.deviceId e) 2
                             && in_window (Some 1704067200000%Z) (Some 1706745599000%Z)
                                          (DeviceEvent.happenedAt e))
                   (deviceEvents (db world_history))))
  /\ map DeviceEvent.happenedAt (deviceEvents (db world_history))
     = [1705320000000; 1703980800000; 1706745600000]%Z
  /\ map DeviceEvent.happenedAt
         (filter (fun e => N.eqb (DeviceEvent.deviceId e) 2
                           && in_window (Some 1704067200000%Z) (Some 1706745599000%Z)
                                        (DeviceEvent.happenedAt e))
                 (deviceEvents (db world_history)))
     = [1705320000000]%Z.
Proof.
  split; [|split; reflexivity].
  apply (@event_listing_window zod dates (Jwt.mkPayload 0 "alice@example.com") "S1"
           (Device.mk 2 "S1" 3000) january
           (Some 1704067200000%Z) (Some 1706745599000%Z) world_history).
  - discriminate.
  - reflexivity.
  - simpl. split; reflexivity.
  - simpl. split; reflexivity.
Defined.

(** Counterexample to C1: bob never linked device 2 ("S1"), yet his listing
    request is answered 200 with the device's events, where an unknown serial
    number is answered 404; and his delete request is not answered 404 either:
    an engine that takes no action removes the Device row, one that restricts
    refuses with the 500 of P2014, while an unknown id is the 500 of P2025. *)
Lemma unlinked_user_is_served :
  @jwtVerify jwt env0 9000 bob = Return (Jwt.mkPayload 1 "bob@example.com")
  /\ existsb (link_matches 1 2) (userDevices (db world_reported)) = false
  /\ fst (server Restrict env0 9000
            (keyed bob (GET_devices_events (Some "S1") no_dates)) world_reported)
     = mkReply 200 (DeviceEventsBody (deviceEvents (db world_reported)))
  /\ map DeviceEvent.id (deviceEvents (db world_reported)) = [4%N]
  /\ fst (server Restrict env0 9000
            (keyed bob (GET_devices_events (Some "S9") no_dates)) world_reported)
     = mkReply 404 (Message "Can not find the device")
  /\ fst (server NoAction env0 9000 (keyed bob (DELETE_devices_id 2)) world_reported)
     = mkReply 200 Empty
  /\ devices (db (snd (server NoAction env0 9000
                         (keyed bob (DELETE_devices_id 2)) world_reported)))
     = []
  /\ fst (server Restrict env0 9000 (keyed bob (DELETE_devices_id 2)) world_reported)
     = mkReply 500 (ErrorBody (PrismaKnownRequestError "P2014"))
  /\ fst (server Restrict env0 9000 (keyed bob (DELETE_devices_id 77)) world_reported)
     = mkReply 500 (ErrorBody (PrismaKnownRequestError "P2025")).
Proof.
  repeat split; reflexivity.
Qed.


(** Counterexample to C3: with [JWT_EXPIRES_IN] unset, alice's registration
    is signed for the span "1d" and her login for "7d"; with the reference
    plugin the registration token lives 86400 seconds and the login token
    604800: the registration token is the one that expires first. *)
Lemma registration_token_expires_first :
  JWT_EXPIRES_IN env0 = None
  /\ token_of (fst alice_registers)
     = @sign jwt (JWT_SECRET_KEY env0) 1000 (Jwt.mkPayload 0 "alice@example.com") "1d"
  /\ token_of (fst alice_logs_in)
     = @sign jwt (JWT_SECRET_KEY env0) 8000 (Jwt.mkPayload 0 "alice@example.com") "7d"
  /\ option_map lifetime (token_of (fst alice_registers)) = Some (Some 86400%Z)
  /\ option_map lifetime (token_of (fst alice_logs_in)) = Some (Some 604800%Z)
  /\ (86400 <? 604800)%Z = true.
Proof.
  repeat split; reflexivity.
Qed.

(** Witness of C4: alice lists her devices without the [x-api-key] header. *)
Lemma api_key_gates_every_route_witness :
  server Restrict env0 9000 (mkRequest None alice GET_devices) world_linked
    = (mkReply 403 Empty, world_linked).
Proof.
  apply (@api_key_gates_every_route zod bcrypt dates jwt (mkEngine Restrict) env0 9000
           (mkRequest None alice GET_devices) world_linked).
  reflexivity.
Defined.

(** Counterexample to C4: alice's token verifies and, with the header, her
    listing is answered 200; the same request without the header, or with
    another key, is answered 403 by the hook. *)
Lemma valid_session_without_api_key_is_forbidden :
  @jwtVerify jwt env0 9000 alice = Return (Jwt.mkPayload 0 "alice@example.com")
  /\ fst (server Restrict env0 9000 (keyed alice GET_devices) world_linked)
     = mkReply 200 (DevicesBody [Device.mk 2 "S1" 3000])
  /\ fst (server Restrict env0 9000 (mkRequest None alice GET_devices) world_linked)
     = mkReply 403 Empty
  /\ fst (server Restrict env0 9000 (mkRequest (Some "user-key") alice GET_devices)
                 world_linked)
     = mkReply 403 Empty.
Proof.
  repeat split; reflexivity.
Qed.

(** Witness of C5: a report of "S1" without [soilMoisture]. *)
Lemma event_readings_required_witness :
  run (@post_devices_events zod dates 9000 (Some "S1")
         (without "soilMoisture" (reading "2024-03-01T00:00:00Z")))
      world_linked
    = (mkReply 500 (ErrorBody ZodError), world_linked).
Proof.
  apply (@event_readings_required zod dates 9000 (Some "S1")
           (without "soilMoisture" (reading "2024-03-01T00:00:00Z")) world_linked).
  left. reflexivity.
Defined.

(** Counterexample to C5: the report of "S1" is stored when it has its four
    readings; without [humidity], or with [humidity] null, the request is
    answered 500 and the store has no event. *)
Lemma event_without_reading_is_rejected :
  status (fst (server Restrict env0 9000
                 (keyed None (POST_devices_events (Some "S1") (reading "2024-03-01T00:00:00Z")))
                 world_linked))
    = 201
  /\ server Restrict env0 9000
        (keyed None (POST_devices_events (Some "S1")
                       (without "humidity" (reading "2024-03-01T00:00:00Z"))))
        world_linked
     = (mkReply 500 (ErrorBody ZodError), world_linked)
  /\ server Restrict env0 9000
        (keyed None (POST_devices_events (Some "S1")
                       (("humidity", JNull) :: without "humidity" (reading "2024-03-01T00:00:00Z"))))
        world_linked
     = (mkReply 500 (ErrorBody ZodError), world_linked)
  /\ deviceEvents (db world_linked) = [].
Proof.
  repeat split; reflexivity.
Qed.



(** * Properties of the application as a whole *)

(** Unfolds a handler and the client calls it makes. *)
Ltac exec_all :=
  unfold handler, post_auth_register, post_auth_login, post_devices, delete_devices_id,
    get_devices, get_devices_events, post_devices_events,
    user_findFirst, user_create, device_findFirst, device_create, device_findMany,
    device_delete, userDevice_create, userDevice_deleteMany, userDevice_findMany,
    deviceEvent_findMany, deviceEvent_create, jwt_sign in *;
  exec.

(** Case analysis on every [match] and [if] left in the goal, innermost
    scrutinee first. *)
Ltac innermost scrutinee :=
  lazymatch scrutinee with
  | context [match _ with _ => _ end] => fail
  | _ => idtac
  end.

Ltac split_matches :=
  repeat match goal with
         | |- context [match ?scrutinee with _ => _ end] =>
             innermost scrutinee; destruct scrutinee eqn:?; simpl
         end.

Section Application.

Context `{Zod} `{Bcrypt} `{DateParser} `{JwtPlugin} `{PrismaEngine}.

Open Scope list_scope.

Lemma find_none_existsb {A} (p : A -> bool) (l : list A) :
  find p l = None -> existsb p l = false.
Proof.
  induction l as [|x l IH]; simpl; [reflexivity|].
  destruct (p x); [discriminate | exact IH].
Qed.

Lemma find_app_none {A} (p : A -> bool) (l : list A) (x : A) :
  find p l = None -> find p (l ++ [x]) = if p x then Some x else None.
Proof.
  induction l as [|y l IH]; simpl; [reflexivity|].
  destruct (p y); [discriminate | exact IH].
Qed.

Lemma find_app_some {A} (p : A -> bool) (l : list A) (x y : A) :
  find p l = Some y -> find p (l ++ [x]) = Some y.
Proof.
  induction l as [|z l IH]; simpl; [discriminate|].
  destruct (p z); [trivial | exact IH].
Qed.

(** A request is stopped by the hook, stopped by the session gate, or handed
    to the handler of its route. *)
Lemma inject_cases (env : Env) (now : DateTime) (request : Request) (w : World) :
  inject env now request w = (mkReply 403 Empty, w)
  \/ (exists e, inject env now request w = (send_error e, w) /\ statusCode e = Some 401)
  \/ (exists user, inject env now request w = run (handler env now user (route request)) w).
Proof.
  unfold inject. destruct (onRequest env request) as [r|] eqn:Hhook.
  - left. unfold onRequest in Hhook. destruct (negb _); [|discriminate].
    injection Hhook as <-. reflexivity.
  - right. destruct (authenticated (route request)); [|right; eauto].
    unfold authenticate, jwtVerify. destruct (authorization request) as [t|].
    + destruct (verify _ now t) as [[|]|];
        [left; eexists; split; reflexivity | left; eexists; split; reflexivity
        | right; eauto].
    + left. eexists. split; reflexivity.
Qed.

Lemma extends_refl {A} (l : list A) : extends l l.
Proof. exists []. symmetry. apply app_nil_r. Qed.

Lemma extends_one {A} (l : list A) (x : A) : extends l (l ++ [x]).
Proof. exists [x]. reflexivity. Qed.

(** No route removes or rewrites a user or an event: whatever the request and
    its outcome, the User rows and the DeviceEvent rows of the store are the
    ones it had, possibly followed by new ones. *)
Theorem users_and_events_append_only
    (env : Env) (now : DateTime) (request : Request) (w : World) :
  extends (users (db w)) (users (db (snd (inject env now request w))))
  /\ extends (deviceEvents (db w)) (deviceEvents (db (snd (inject env now request w)))).
Proof.
  destruct (inject_cases env now request w) as [E | [[e [E _]] | [user E]]];
    rewrite E; simpl; try (split; apply extends_refl).
  destruct (route request); exec_all; split_matches;
    split; first [apply extends_refl | apply extends_one].
Qed.

(** A handler asks the store for the row before it creates it, so the
    unique-constraint error of [create] is never what a request run on its own
    is answered with. *)
Theorem no_unique_violation
    (env : Env) (now : DateTime) (request : Request) (w : World) :
  unique_violation (fst (inject env now request w)) = false.
Proof.
  destruct (inject_cases env now request w) as [E | [[e [E He]] | [user E]]];
    rewrite E; simpl; [reflexivity | destruct e; try discriminate; reflexivity |].
  destruct (route request); exec_all.
  - destruct (userSchema body) as [[email password]|]; simpl; [|reflexivity].
    destruct (find _ (users (db w))) eqn:Hfind; simpl; [reflexivity|].
    rewrite (find_none_existsb _ _ Hfind). simpl. split_matches; reflexivity.
  - split_matches; reflexivity.
  - destruct (deviceSchema body) as [serialNumber|]; simpl; [|reflexivity].
    destruct (find _ (devices (db w))) eqn:Hfind; simpl; [reflexivity|].
    rewrite (find_none_existsb _ _ Hfind). reflexivity.
  - split_matches; reflexivity.
  - reflexivity.
  - split_matches; reflexivity.
  - destruct (eventSchema body); simpl; [|reflexivity].
    destruct (truthy serialNumber); simpl; [|reflexivity].
    destruct (find _ (devices (db w))) eqn:Hfind; simpl.
    + split_matches; reflexivity.
    + rewrite (find_none_existsb _ _ Hfind). simpl. split_matches; reflexivity.
Qed.

(** Login, the device listing and the event listing never write: whatever
    the request and its outcome, the store is the one before the request. *)
Theorem reading_routes_do_not_write
    (env : Env) (now : DateTime) (request : Request) (w : World) :
  reads_only (route request) = true ->
  db (snd (inject env now request w)) = db w.
Proof.
  intros Hro.
  destruct (inject_cases env now request w) as [E | [[e [E _]] | [user E]]];
    rewrite E; simpl; try reflexivity.
  destruct (route request); try discriminate; exec_all; split_matches; reflexivity.
Qed.

(** The ingestion route writes devices and events only: it leaves the users
    and the ownership links as they are, so a device it creates has no link
    added for anyone, and it adds at most one Device row, with the serial
    number of the path. *)
Theorem ingestion_creates_no_link
    (now : DateTime) (serialNumber : option string) (body : JObject) (w : World) :
  users (db (snd (run (post_devices_events now serialNumber body) w))) = users (db w)
  /\ userDevices (db (snd (run (post_devices_events now serialNumber body) w)))
     = userDevices (db w)
  /\ (devices (db (snd (run (post_devices_events now serialNumber body) w)))
        = devices (db w)
      \/ exists device,
           devices (db (snd (run (post_devices_events now serialNumber body) w)))
             = (devices (db w) ++ [device])%list
           /\ Device.serialNumber device = given serialNumber
           /\ find (fun x => String.eqb (Device.serialNumber x) (given serialNumber))
                   (devices (db w)) = None).
Proof.
  exec_all.
  destruct (eventSchema body); simpl; [|auto].
  destruct (truthy serialNumber); simpl; [|auto].
  destruct (find _ (devices (db w))) eqn:Hfind; simpl.
  - split_matches; auto.
  - rewrite (find_none_existsb _ _ Hfind). simpl.
    split_matches; (split; [reflexivity|]; split; [reflexivity|]);
      right; eexists; (split; [reflexivity|]); split; reflexivity.
Qed.

Lemma find_none_notin {A} (key : A -> string) (k : string) (l : list A) :
  find (fun x => String.eqb (key x) k) l = None -> ~ In k (map key l).
Proof.
  induction l as [|x l IH]; simpl; [tauto|].
  destruct (String.eqb_spec (key x) k) as [|Hne]; [discriminate|].
  intros Hfind [E|Hin]; [contradiction | exact (IH Hfind Hin)].
Qed.

Lemma NoDup_snoc {A} (l : list A) (x : A) : NoDup l -> ~ In x l -> NoDup (l ++ [x]).
Proof.
  intros Hl Hx. apply NoDup_app; [exact Hl | repeat constructor; simpl; tauto |].
  intros y Hy [<-|[]]. contradiction.
Qed.

Lemma NoDup_map_filter {Row Key} (key : Row -> Key) (keep : Row -> bool) (rows : list Row)
    (Hrows : NoDup (map key rows)) :
  NoDup (map key (filter keep rows)).
Proof.
  induction rows as [|r rows IH]; simpl in *; [trivial|].
  inversion Hrows as [|? ? Hr Hrest]; subst.
  destruct (keep r); simpl; [|exact (IH Hrest)].
  constructor; [|exact (IH Hrest)].
  intros Hin. apply Hr. apply in_map_iff in Hin. destruct Hin as [y [E Hy]].
  apply in_map_iff. exists y. split; [exact E|]. apply filter_In in Hy. tauto.
Qed.

(** The unique columns stay unique: when no two users share an email and no
    two devices share a serial number, the same holds after any request,
    whatever its outcome. *)
Theorem unique_keys_preserved
    (env : Env) (now : DateTime) (request : Request) (w : World) :
  unique_keys (db w) ->
  unique_keys (db (snd (inject env now request w))).
Proof.
  intros Huk.
  destruct (inject_cases env now request w) as [E | [[e [E _]] | [user E]]];
    rewrite E; simpl; try exact Huk.
  destruct Huk as [Hu Hd].
  destruct (route request); exec_all; split_matches; unfold unique_keys; simpl;
    (split;
     first [ assumption
           | rewrite map_app; apply NoDup_snoc;
             [assumption | eapply find_none_notin; eassumption]
           | apply NoDup_map_filter; assumption ]).
Qed.

(** The reply of the device listing, as the two queries compute it. *)
Lemma get_devices_reply (user : Jwt.payload) (w : World) :
  fst (run (get_devices user) w)
  = mkReply 200
      (DevicesBody
         (filter (fun x =>
                    existsb (N.eqb (Device.id x))
                      (map UserDevice.deviceId
                         (filter (fun l => N.eqb (UserDevice.userId l) (Jwt.id user))
                                 (userDevices (db w)))))
                 (devices (db w)))).
Proof. reflexivity. Qed.

Lemma listed_iff (user : Jwt.payload) (w : World) (d : Device.t) :
  In d (listed (fst (run (get_devices user) w)))
  <-> In d (devices (db w))
      /\ exists l, In l (userDevices (db w))
                   /\ UserDevice.userId l = Jwt.id user
                   /\ UserDevice.deviceId l = Device.id d.
Proof.
  rewrite get_devices_reply. unfold listed. simpl.
  rewrite filter_In, existsb_exists. split.
  - intros [Hd [i [Hi Heq]]]. split; [exact Hd|].
    apply in_map_iff in Hi. destruct Hi as [l [<- Hl]].
    apply filter_In in Hl. destruct Hl as [Hl Hu].
    exists l. apply N.eqb_eq in Hu, Heq. auto.
  - intros [Hd [l [Hl [Hu Hi]]]]. split; [exact Hd|].
    exists (UserDevice.deviceId l). split.
    + apply in_map_iff. exists l. split; [reflexivity|].
      apply filter_In. split; [exact Hl|]. apply N.eqb_eq. exact Hu.
    + apply N.eqb_eq. symmetry. exact Hi.
Qed.

(** GET /devices answers 200 with the devices the caller is linked to and no
    others: a Device row is listed exactly when some link of the store joins
    the caller's id to the device's id. *)
Theorem get_devices_lists_linked (user : Jwt.payload) (w : World) (d : Device.t) :
  status (fst (run (get_devices user) w)) = 200
  /\ (In d (listed (fst (run (get_devices user) w)))
      <-> In d (devices (db w))
          /\ exists l, In l (userDevices (db w))
                       /\ UserDevice.userId l = Jwt.id user
                       /\ UserDevice.deviceId l = Device.id d).
Proof.
  split; [reflexivity | apply listed_iff].
Qed.

(** POST /devices with a serial number no device has creates one Device row
    with that serial number and one link from the requester to it, answers
    201 with the new device, and the requester's listing then contains it. *)
Theorem post_devices_creates_and_links
    (now : DateTime) (user : Jwt.payload) (body : JObject) (serialNumber : string)
    (w : World) :
  deviceSchema body = Some serialNumber ->
  find (fun x => String.eqb (Device.serialNumber x) serialNumber) (devices (db w)) = None ->
  exists device link,
    fst (run (post_devices now user body) w) = mkReply 201 (DeviceBody device)
    /\ Device.serialNumber device = serialNumber
    /\ devices (db (snd (run (post_devices now user body) w))) = devices (db w) ++ [device]
    /\ userDevices (db (snd (run (post_devices now user body) w)))
       = userDevices (db w) ++ [link]
    /\ UserDevice.userId link = Jwt.id user
    /\ UserDevice.deviceId link = Device.id device
    /\ In device (listed (fst (run (get_devices user)
                                   (snd (run (post_devices now user body) w))))).
Proof.
  intros Hbody Hfind.
  assert (E : run (post_devices now user body) w
              = (mkReply 201 (DeviceBody (Device.mk (nextId (db w)) serialNumber now)),
                 mkWorld
                   (mkDB (users (db w))
                         (devices (db w) ++ [Device.mk (nextId (db w)) serialNumber now])
                         (userDevices (db w)
                          ++ [UserDevice.mk (N.succ (nextId (db w))) (Jwt.id user)
                                            (nextId (db w))])
                         (deviceEvents (db w)) (N.succ (N.succ (nextId (db w)))))
                   (queries w ++ [device_findFirst_q serialNumber]
                    ++ [device_create_q serialNumber]
                    ++ [userDevice_create_q (Jwt.id user) (nextId (db w))]))).
  { exec_all. rewrite Hbody. simpl. rewrite Hfind. simpl.
    rewrite (find_none_existsb _ _ Hfind). simpl.
    rewrite <- !app_assoc. reflexivity. }
  rewrite E. cbn [fst snd].
  exists (Device.mk (nextId (db w)) serialNumber now),
         (UserDevice.mk (N.succ (nextId (db w))) (Jwt.id user) (nextId (db w))).
  repeat (split; [reflexivity|]).
  apply listed_iff. split.
  - simpl. apply in_or_app. right. left. reflexivity.
  - eexists. split; [simpl; apply in_or_app; right; left; reflexivity|].
    split; reflexivity.
Qed.

(** POST /devices is idempotent: sent a second time with the same body, by
    whoever, it answers as the first time and leaves the store as the first
    request left it. *)
Theorem post_devices_idempotent
    (now now' : DateTime) (user user' : Jwt.payload) (body : JObject) (w : World) :
  fst (run (post_devices now' user' body) (snd (run (post_devices now user body) w)))
    = fst (run (post_devices now user body) w)
  /\ db (snd (run (post_devices now' user' body) (snd (run (post_devices now user body) w))))
     = db (snd (run (post_devices now user body) w)).
Proof.
  exec_all.
  destruct (deviceSchema body) as [serialNumber|]; simpl; [|split; reflexivity].
  destruct (find _ (devices (db w))) as [d|] eqn:Hfind; simpl.
  - rewrite Hfind. simpl. split; reflexivity.
  - rewrite (find_none_existsb _ _ Hfind). simpl.
    rewrite (find_app_none _ _ _ Hfind). simpl.
    rewrite String.eqb_refl. simpl. split; reflexivity.
Qed.

Lemma delete_success_removes_row (user : Jwt.payload) (id : ObjectId) (w : World) :
  status (fst (run (delete_devices_id user id) w)) = 200 ->
  existsb (fun x => N.eqb (Device.id x) id)
          (devices (db (snd (run (delete_devices_id user id) w)))) = false.
Proof.
  exec_all. destruct (find _ (devices (db w))); simpl; [|discriminate].
  destruct onDelete; [destruct (references id _); simpl; [discriminate|]|];
    intros _; apply (existsb_filter_out (fun x => N.eqb (Device.id x) id)).
Qed.

Lemma existsb_filter_false {A} (p q : A -> bool) (l : list A) :
  existsb p l = false -> existsb p (filter q l) = false.
Proof.
  induction l as [|x l IH]; simpl; [trivial|].
  intros Hp. apply orb_false_iff in Hp. destruct Hp as [Hx Hl].
  destruct (q x); simpl; [rewrite Hx|]; auto.
Qed.

(** After a delete that succeeds, the device is in nobody's listing: GET
    /devices of any user lists no device with the deleted id, also for users
    whose link to it is still in the store. *)
Theorem deleted_device_not_listed
    (user user' : Jwt.payload) (id : ObjectId) (w : World) :
  status (fst (run (delete_devices_id user id) w)) = 200 ->
  existsb (fun d => N.eqb (Device.id d) id)
          (listed (fst (run (get_devices user') (snd (run (delete_devices_id user id) w)))))
  = false.
Proof.
  intros Hok. rewrite get_devices_reply. unfold listed. simpl.
  apply existsb_filter_false. apply (delete_success_removes_row user id w Hok).
Qed.

(** The delete route is not atomic.  Whatever its outcome, the requester's
    links to the id are removed and the requester's listing no longer has the
    device; when the reply is the 500 of a failed delete, the Device rows are
    all still in the store. *)
Theorem delete_unlinks_even_when_it_fails
    (user : Jwt.payload) (id : ObjectId) (w : World) :
  existsb (link_matches (Jwt.id user) id)
          (userDevices (db (snd (run (delete_devices_id user id) w)))) = false
  /\ existsb (fun d => N.eqb (Device.id d) id)
             (listed (fst (run (get_devices user) (snd (run (delete_devices_id user id) w)))))
     = false
  /\ (status (fst (run (delete_devices_id user id) w)) = 200
      \/ status (fst (run (delete_devices_id user id) w)) = 500
         /\ devices (db (snd (run (delete_devices_id user id) w))) = devices (db w)).
Proof.
  assert (Hlinks : existsb (link_matches (Jwt.id user) id)
                     (userDevices (db (snd (run (delete_devices_id user id) w)))) = false).
  { rewrite delete_unlinks_requester. apply existsb_filter_out. }
  split; [exact Hlinks|]. split.
  - destruct (existsb _ (listed _)) eqn:Hex; [|reflexivity].
    apply existsb_exists in Hex. destruct Hex as [d [Hd Hid]].
    apply listed_iff in Hd. destruct Hd as [_ [l [Hl [Hu Hi]]]].
    apply N.eqb_eq in Hid.
    assert (Hm : existsb (link_matches (Jwt.id user) id)
                   (userDevices (db (snd (run (delete_devices_id user id) w)))) = true).
    { apply existsb_exists. exists l. split; [exact Hl|].
      unfold link_matches. rewrite Hu, Hi, Hid, !N.eqb_refl. reflexivity. }
    rewrite Hlinks in Hm. discriminate.
  - exec_all. destruct (find _ (devices (db w))); simpl; [|right; split; reflexivity].
    destruct onDelete; [|left; reflexivity].
    destruct (references id _); simpl; [right; split; reflexivity | left; reflexivity].
Qed.

(** An event that the ingestion route stored is the last one of its device's
    listing: the listing without dates, asked for the same serial number, is
    the events the device had followed by the new one. *)
Theorem ingested_event_is_listed
    (now : DateTime) (user : Jwt.payload) (serialNumber : option string) (body : JObject)
    (w w' : World) (e : DeviceEvent.t) :
  post_devices_events now serialNumber body w
    = (Return (mkReply 201 (DeviceEventBody e)), w') ->
  fst (run (get_devices_events user serialNumber (mkQuery None None)) w')
  = mkReply 200
      (DeviceEventsBody
         (filter (fun x => N.eqb (DeviceEvent.deviceId x) (DeviceEvent.deviceId e))
                 (deviceEvents (db w)) ++ [e])).
Proof.
  unfold post_devices_events, get_devices_events.
  destruct (eventSchema body) as [data|]; exec; [|discriminate].
  destruct (truthy serialNumber); simpl; [|discriminate].
  unfold device_findFirst, device_create, deviceEvent_create, deviceEvent_findMany. exec.
  destruct (find _ (devices (db w))) as [d|] eqn:Hfind; simpl.
  - destruct (newDate _); simpl; [|discriminate].
    intros E. inversion E; subst; clear E. simpl. rewrite Hfind. simpl.
    rewrite filter_app. simpl. rewrite N.eqb_refl. reflexivity.
  - rewrite (find_none_existsb _ _ Hfind). simpl.
    destruct (newDate _); simpl; [|discriminate].
    intros E. inversion E; subst; clear E. simpl.
    rewrite (find_app_none _ _ _ Hfind). simpl. rewrite String.eqb_refl. simpl.
    rewrite filter_app. simpl. rewrite N.eqb_refl. reflexivity.
Qed.

Lemma strict_eq_spec (a b : option string) : strict_eq a b = true <-> a = b.
Proof.
  destruct a as [x|], b as [y|]; simpl; split; try discriminate; try reflexivity.
  - intros E. apply String.eqb_eq in E. congruence.
  - intros E. injection E as ->. apply String.eqb_refl.
Qed.

(** The hook lets a request through exactly when its [x-api-key] header and
    [API_KEY] are the same value; both being undefined counts as the same, so
    with [API_KEY] unset a request without the header passes.  A request it
    stops is answered 403 with an empty body. *)
Theorem hook_passes_iff_key_equal (env : Env) (request : Request) :
  (onRequest env request = None <-> API_KEY env = x_api_key request)
  /\ (onRequest env request = None
      \/ onRequest env request = Some (mkReply 403 Empty)).
Proof.
  unfold onRequest. rewrite <- strict_eq_spec.
  destruct (strict_eq (API_KEY env) (x_api_key request)); simpl; split;
    try (split; [reflexivity + discriminate | reflexivity + discriminate]); auto.
Qed.

(** Register, then log in: after a registration that succeeded, a login with
    the same body is answered 200 with a token for the same user id and
    email, provided the password hash verifies against its own password. *)
Theorem register_then_login
    (env : Env) (now now' : DateTime) (body : JObject) (w w' : World)
    (token : Jwt.token) :
  (forall password, compare password (hash password 8) = true) ->
  post_auth_register env now body w = (Return (mkReply 201 (TokenBody token)), w') ->
  exists token',
    fst (run (post_auth_login env now' body) w') = mkReply 200 (TokenBody token')
    /\ Jwt.claims token' = Jwt.claims token
    /\ db (snd (run (post_auth_login env now' body) w')) = db w'.
Proof.
  intros Hbcrypt. unfold post_auth_register, post_auth_login.
  destruct (userSchema body) as [[email password]|]; exec; [|discriminate].
  unfold user_findFirst, user_create, jwt_sign. exec.
  destruct (find _ (users (db w))) as [u|] eqn:Hfind; simpl; [discriminate|].
  rewrite (find_none_existsb _ _ Hfind). simpl.
  destruct (sign _ now _ (or_else (JWT_EXPIRES_IN env) "1d")) as [t|] eqn:Hsign;
    simpl; [|discriminate].
  intros E. inversion E; subst; clear E. simpl.
  rewrite (find_app_none _ _ _ Hfind). simpl. rewrite String.eqb_refl. simpl.
  rewrite Hbcrypt. simpl.
  destruct (sign (JWT_SECRET_KEY env) now'
              (Jwt.mkPayload (nextId (db w)) email) "7d") as [t'|] eqn:Hsign';
    [|exfalso; exact (signs_7d _ _ _ Hsign')].
  simpl. exists t'. split; [reflexivity|]. split; [|reflexivity].
  rewrite (sign_claims _ _ _ _ _ Hsign), (sign_claims _ _ _ _ _ Hsign'). reflexivity.
Qed.

(** A registration that succeeds adds one User row, after the others, with
    the email of the body and, as its password, the bcrypt hash of cost 8 of
    the password of the body; the token names that row. *)
Theorem register_stores_hash
    (env : Env) (now : DateTime) (body : JObject) (email password : string)
    (w w' : World) (token : Jwt.token) :
  userSchema body = Some (email, password) ->
  post_auth_register env now body w = (Return (mkReply 201 (TokenBody token)), w') ->
  exists user,
    users (db w') = users (db w) ++ [user]
    /\ User.email user = email
    /\ User.password user = hash password 8
    /\ User.createdAt user = now
    /\ Jwt.claims token = Jwt.mkPayload (User.id user) email
    /\ find (fun u => String.eqb (User.email u) email) (users (db w)) = None.
Proof.
  intros Hbody. unfold post_auth_register. rewrite Hbody. exec.
  unfold user_findFirst, user_create, jwt_sign. exec.
  destruct (find _ (users (db w))) as [u|] eqn:Hfind; simpl; [discriminate|].
  rewrite (find_none_existsb _ _ Hfind). simpl.
  destruct (sign _ now _ (or_else (JWT_EXPIRES_IN env) "1d")) as [t|] eqn:Hsign;
    simpl; [|discriminate].
  intros E. inversion E; subst; clear E. simpl.
  eexists. repeat (split; [reflexivity|]). split; [|reflexivity].
  exact (sign_claims _ _ _ _ _ Hsign).
Qed.

End Application.

(** ** These properties on the run of the application *)

(** The event listing of January leaves the store as it was. *)
Lemma reading_routes_do_not_write_witness :
  db (snd (server Restrict env0 9000
             (keyed alice (GET_devices_events (Some "S1") january)) world_history))
  = db world_history.
Proof.
  apply (@reading_routes_do_not_write zod bcrypt dates jwt (mkEngine Restrict) env0 9000
           (keyed alice (GET_devices_events (Some "S1") january)) world_history).
  reflexivity.
Defined.

(** Emails and serial numbers are distinct before and after bob adds "S2". *)
Lemma unique_keys_preserved_witness :
  unique_keys (db (snd (server NoAction env0 9000
                          (keyed bob (POST_devices [("serialNumber", JString "S2")]))
                          world_reported))).
Proof.
  apply (@unique_keys_preserved zod bcrypt dates jwt (mkEngine NoAction) env0 9000
           (keyed bob (POST_devices [("serialNumber", JString "S2")])) world_reported).
  split; simpl; repeat constructor; simpl; intuition discriminate.
Defined.

(** Bob adds "S2": device 5, link 6, and his listing has it. *)
Lemma post_devices_creates_and_links_witness :
  exists device link,
    fst (run (post_devices 9000 (Jwt.mkPayload 1 "bob@example.com")
                [("serialNumber", JString "S2")]) world_reported)
      = mkReply 201 (DeviceBody device)
    /\ Device.serialNumber device = "S2"
    /\ devices (db (snd (run (post_devices 9000 (Jwt.mkPayload 1 "bob@example.com")
                               [("serialNumber", JString "S2")]) world_reported)))
       = (devices (db world_reported) ++ [device])%list
    /\ userDevices (db (snd (run (post_devices 9000 (Jwt.mkPayload 1 "bob@example.com")
                                   [("serialNumber", JString "S2")]) world_reported)))
       = (userDevices (db world_reported) ++ [link])%list
    /\ UserDevice.userId link = 1%N
    /\ UserDevice.deviceId link = Device.id device
    /\ In device
          (listed (fst (run (get_devices (Jwt.mkPayload 1 "bob@example.com"))
                            (snd (run (post_devices 9000 (Jwt.mkPayload 1 "bob@example.com")
                                        [("serialNumber", JString "S2")])
                                      world_reported))))).
Proof.
  apply (post_devices_creates_and_links 9000 (Jwt.mkPayload 1 "bob@example.com")
           [("serialNumber", JString "S2")] "S2" world_reported); reflexivity.
Defined.

(** Alice deletes her device; it is not in her listing afterwards. *)
Lemma deleted_device_not_listed_witness :
  existsb (fun d => N.eqb (Device.id d) 2)
          (listed (fst (server Restrict env0 9500 (keyed alice GET_devices)
                          (snd (server Restrict env0 9000
                                  (keyed alice (DELETE_devices_id 2)) world_linked)))))
  = false.
Proof.
  apply (@deleted_device_not_listed (mkEngine Restrict)
           (Jwt.mkPayload 0 "alice@example.com") (Jwt.mkPayload 0 "alice@example.com")
           2 world_linked).
  reflexivity.
Defined.

(** The first report of "S1" is what its listing shows. *)
Lemma ingested_event_is_listed_witness :
  fst (server Restrict env0 9000
         (keyed alice (GET_devices_events (Some "S1") no_dates)) world_reported)
  = mkReply 200
      (DeviceEventsBody
         [DeviceEvent.mk 4 2 "00:1B:44:11:3A:B7" "192.168.0.7"
            (Some 41.5%float) (Some 63%float) (Some 21.25%float) (Some 800%float)
            1705320000000 4000]).
Proof.
  apply (@ingested_event_is_listed zod dates 4000 (Jwt.mkPayload 0 "alice@example.com")
           (Some "S1") (reading "2024-01-15T12:00:00Z") world_linked world_reported
           (DeviceEvent.mk 4 2 "00:1B:44:11:3A:B7" "192.168.0.7"
              (Some 41.5%float) (Some 63%float) (Some 21.25%float) (Some 800%float)
              1705320000000 4000)).
  vm_compute. reflexivity.
Defined.

(** Alice registers, then logs in. *)
Lemma register_then_login_witness :
  exists token',
    fst (run (@post_auth_login zod bcrypt jwt env0 8000
                (credentials "alice@example.com" "correct horse"))
             (snd alice_registers))
      = mkReply 200 (TokenBody token')
    /\ Jwt.claims token' = Jwt.mkPayload 0 "alice@example.com"
    /\ db (snd (run (@post_auth_login zod bcrypt jwt env0 8000
                       (credentials "alice@example.com" "correct horse"))
                    (snd alice_registers)))
       = db (snd alice_registers).
Proof.
  apply (@register_then_login zod bcrypt jwt env0 1000 8000
           (credentials "alice@example.com" "correct horse") world0 (snd alice_registers)
           (Jwt.mkToken (Jwt.mkPayload 0 "alice@example.com") 1 (Some 86401%Z) "jwt-secret")).
  - intros password. simpl. apply String.eqb_refl.
  - reflexivity.
Defined.

(** Alice's registration, row by row. *)
Lemma register_stores_hash_witness :
  exists user,
    users (db (snd alice_registers)) = (users (db world0) ++ [user])%list
    /\ User.email user = "alice@example.com"
    /\ User.password user = "$2b$08$correct horse"
    /\ User.createdAt user = 1000%Z
    /\ Jwt.mkPayload 0 "alice@example.com" = Jwt.mkPayload (User.id user) "alice@example.com"
    /\ find (fun u => String.eqb (User.email u) "alice@example.com") (users (db world0))
       = None.
Proof.
  apply (@register_stores_hash zod bcrypt jwt env0 1000
           (credentials "alice@example.com" "correct horse")
           "alice@example.com" "correct horse" world0 (snd alice_registers)
           (Jwt.mkToken (Jwt.mkPayload 0 "alice@example.com") 1 (Some 86401%Z) "jwt-secret"));
    reflexivity.
Defined.

(** Alice's registration token, a day and more after it was issued. *)
Lemma session_gate_witness :
  server Restrict env0 90000000 (keyed alice GET_devices) world_linked
    = (send_error FST_JWT_AUTHORIZATION_TOKEN_EXPIRED, world_linked)
  /\ status (send_error FST_JWT_AUTHORIZATION_TOKEN_EXPIRED) = 401.
Proof.
  apply (@session_gate zod bcrypt dates jwt (mkEngine Restrict) env0 90000000
           (keyed alice GET_devices) world_linked FST_JWT_AUTHORIZATION_TOKEN_EXPIRED);
    reflexivity.
Defined.
